(** * The Janus locking facade ([mutex.h]) as an executable model

    [mutex.h] is a header of function-like macros.  Every macro is rendered
    here as a Rocq definition of the same name whose body is the macro's
    replacement list, written with a handful of combinators that stand for
    the C constructs the header uses (a call, an assignment, [if], a block,
    a GNU statement expression).  The two arms of [#ifdef USE_PTHREAD_MUTEX]
    are the modules [Pthread] and [GLib].  A handle argument is taken as a
    value: the header only ever passes it on as a function argument.  The
    deadline of [janus_condition_wait_until] is taken as the expression the
    caller writes, because the header pastes it next to [/] and [%] without
    parentheses of its own. *)

From Stdlib Require Import ZArith List String Ascii Bool Lia.
From Stdlib Require Import DecimalString HexadecimalString.
Import ListNotations.
Local Open Scope string_scope.
Local Open Scope Z_scope.

(** ** Values handed to the collaborators *)

(** What the macros pass on: the lock handle [a] (a pointer), [NULL], the
    [gint64] deadline, and the address of the local [struct timespec]. *)
Inductive value : Type :=
| VPtr (addr : Z)
| VNull
| VInt (n : Z)
| VTimespec (tv_sec tv_nsec : Z).

(** The functions of the two primitive families that the header names. *)
Inductive prim : Type :=
| pthread_mutex_init | pthread_mutex_destroy | pthread_mutex_lock
| pthread_mutex_trylock | pthread_mutex_unlock
| pthread_cond_init | pthread_cond_destroy | pthread_cond_wait
| pthread_cond_timedwait | pthread_cond_signal | pthread_cond_broadcast
| g_mutex_init | g_mutex_clear | g_mutex_lock | g_mutex_trylock | g_mutex_unlock
| g_cond_init | g_cond_clear | g_cond_wait | g_cond_wait_until
| g_cond_signal | g_cond_broadcast
| g_rw_lock_init | g_rw_lock_clear
| g_rw_lock_reader_lock | g_rw_lock_reader_trylock | g_rw_lock_reader_unlock
| g_rw_lock_writer_lock | g_rw_lock_writer_trylock | g_rw_lock_writer_unlock.

(** Modelled from the spec: the declarations of the primitives ([glib.h],
    [pthread.h]) are not part of this header.  The pthread functions return
    an [int]; of the GLib functions only the trylocks and
    [g_cond_wait_until] return a value (a [gboolean]), the others are
    [void]. *)
Definition is_void (f : prim) : bool :=
  match f with
  | g_mutex_init | g_mutex_clear | g_mutex_lock | g_mutex_unlock
  | g_cond_init | g_cond_clear | g_cond_wait | g_cond_signal | g_cond_broadcast
  | g_rw_lock_init | g_rw_lock_clear
  | g_rw_lock_reader_lock | g_rw_lock_reader_unlock
  | g_rw_lock_writer_lock | g_rw_lock_writer_unlock => true
  | _ => false
  end.

(** A primitive either hands back a value (the [int] or [gboolean] result;
    a [void] primitive hands back a value nobody can use) together with the
    new state of the locks, or it does not come back: the caller stays
    blocked. *)
Inductive reply (S : Type) : Type :=
| Returns (r : Z) (s : S)
| Blocks.
Arguments Returns {S} r s.
Arguments Blocks {S}.

(** The Primitive Backend: an external collaborator, abstract here. *)
Class PrimitiveBackend : Type := {
  bstate : Type;
  run_prim : prim -> list value -> bstate -> reply bstate
}.

(** The Trace Sink.  [JANUS_PRINT] is printf-like; how [%p] prints an
    address is left to the platform. *)
Class TraceSink : Type := {
  show_pointer : Z -> string
}.

(** [__FILE__], [__FUNCTION__] and [__LINE__] at the place of expansion. *)
Record callsite : Type := {
  cs_file : string;
  cs_function : string;
  cs_line : Z
}.

(** ** printf-style formatting, as far as the header's formats need it *)

Inductive parg : Type :=
| PStr (s : string)
| PInt (n : Z)
| PPtr (p : Z).

Definition show_int (n : Z) : string :=
  DecimalString.NilZero.string_of_int (Z.to_int n).

Section Formatting.
Context {sink : TraceSink}.

Definition show_arg (conv : ascii) (x : parg) : option string :=
  match conv, x with
  | "s"%char, PStr s => Some s
  | "d"%char, PInt n => Some (show_int n)
  | "p"%char, PPtr p => Some (show_pointer p)
  | _, _ => None
  end.

(** A conversion consumes the next argument; every other character is
    copied.  A conversion that meets no fitting argument prints nothing. *)
Fixpoint sprintf (fmt : string) (args : list parg) : string :=
  match fmt with
  | EmptyString => EmptyString
  | String "%"%char (String conv rest) =>
      match args with
      | x :: args' =>
          match show_arg conv x with
          | Some s => s ++ sprintf rest args'
          | None => sprintf rest args'
          end
      | [] => sprintf rest []
      end
  | String ch rest => String ch (sprintf rest args)
  end.
End Formatting.

(** ** The world a macro expansion runs in *)

(** What an expansion does that an observer can tell apart, in order. *)
Inductive event : Type :=
| EvFlag                                (* one evaluation of [lock_debug] *)
| EvPrint (line : string)               (* one line handed to [JANUS_PRINT] *)
| EvCall (f : prim) (args : list value) (* one call into the backend *).

Inductive ctype : Type := c_int | c_gboolean.

(** A block-scope variable: its name, its type, its value once assigned. *)
Definition binding : Type := (string * ctype * option Z)%type.
Definition frame : Type := list binding.

Inductive fault : Type :=
| Undeclared (id : string)     (* an identifier with no declaration in scope *)
| Indeterminate (id : string)  (* a variable read before it is assigned *).

Section World.
Context {backend : PrimitiveBackend}.

Record world : Type := mkWorld {
  lock_debug : Z;          (* [extern int lock_debug;] *)
  frames : list frame;     (* block scopes at the place of expansion, innermost first *)
  log : list event;        (* newest event first *)
  locks : bstate           (* the backend's state *)
}.

Inductive outcome (A : Type) : Type :=
| Done (a : A) (w : world)
| Blocked (w : world)
| Fault (f : fault) (w : world).
Arguments Done {A} a w.
Arguments Blocked {A} w.
Arguments Fault {A} f w.

Definition world_of {A} (o : outcome A) : world :=
  match o with Done _ w | Blocked w | Fault _ w => w end.

Definition M (A : Type) : Type := world -> outcome A.

Definition ret {A} (a : A) : M A := fun w => Done a w.

Definition bind {A B} (m : M A) (k : A -> M B) : M B :=
  fun w =>
    match m w with
    | Done a w' => k a w'
    | Blocked w' => Blocked w'
    | Fault f w' => Fault f w'
    end.

Definition record (e : event) (w : world) : world :=
  mkWorld (lock_debug w) (frames w) (e :: log w) (locks w).

(** [lock_debug] as an rvalue. *)
Definition read_lock_debug : M Z :=
  fun w => Done (lock_debug w) (record EvFlag w).

(** [f(args)] for a function of the backend. *)
Definition call (f : prim) (args : list value) : M Z :=
  fun w =>
    let w' := record (EvCall f args) w in
    match run_prim f args (locks w) with
    | Returns r s => Done r (mkWorld (lock_debug w') (frames w') (log w') s)
    | Blocks => Blocked w'
    end.

(** [id(args)] where [id] is the name of the macro under expansion.  The
    preprocessor does not replace a macro's own name while it rescans that
    macro's replacement list (C11 6.10.3.4p2), so the name reaches the
    compiler as an ordinary identifier; the header declares no function of
    that name.  A C toolchain reports this when the program is built; here
    it shows when control gets there. *)
Definition call_unexpanded (id : string) (args : list value) : M Z :=
  fun w => Fault (Undeclared id) w.

(** [e;] *)
Definition expr_stmt (e : M Z) : M unit := bind e (fun _ => ret tt).

(** [!e] *)
Definition lnot (v : Z) : Z := if v =? 0 then 1 else 0.

Definition if_ {A} (c : Z) (s1 s2 : M A) : M A :=
  if c =? 0 then s2 else s1.

(** [{ s }]: a new scope around [s]. *)
Definition block {A} (s : M A) : M A :=
  fun w =>
    match s (mkWorld (lock_debug w) ([] :: frames w) (log w) (locks w)) with
    | Done a w' => Done a (mkWorld (lock_debug w') (tl (frames w')) (log w') (locks w'))
    | other => other
    end.

(** [ty x;] in the innermost scope. *)
Definition declare (ty : ctype) (x : string) : M unit :=
  fun w =>
    match frames w with
    | fr :: frs => Done tt (mkWorld (lock_debug w) (((x, ty, None) :: fr) :: frs) (log w) (locks w))
    | [] => Done tt (mkWorld (lock_debug w) [[(x, ty, None)]] (log w) (locks w))
    end.

Fixpoint frame_set (x : string) (v : Z) (fr : frame) : option frame :=
  match fr with
  | [] => None
  | (y, ty, old) :: fr' =>
      if String.eqb x y then Some ((y, ty, Some v) :: fr')
      else option_map (cons (y, ty, old)) (frame_set x v fr')
  end.

Fixpoint frames_set (x : string) (v : Z) (frs : list frame) : option (list frame) :=
  match frs with
  | [] => None
  | fr :: frs' =>
      match frame_set x v fr with
      | Some fr' => Some (fr' :: frs')
      | None => option_map (cons fr) (frames_set x v frs')
      end
  end.

Fixpoint frame_get (x : string) (fr : frame) : option (option Z) :=
  match fr with
  | [] => None
  | (y, _, val) :: fr' => if String.eqb x y then Some val else frame_get x fr'
  end.

Fixpoint frames_get (x : string) (frs : list frame) : option (option Z) :=
  match frs with
  | [] => None
  | fr :: frs' =>
      match frame_get x fr with
      | Some val => Some val
      | None => frames_get x frs'
      end
  end.

(** [x = v;] on the innermost [x] in scope. *)
Definition assign (x : string) (v : Z) : M unit :=
  fun w =>
    match frames_set x v (frames w) with
    | Some frs => Done tt (mkWorld (lock_debug w) frs (log w) (locks w))
    | None => Fault (Undeclared x) w
    end.

(** [x] as an rvalue. *)
Definition rvalue (x : string) : M Z :=
  fun w =>
    match frames_get x (frames w) with
    | Some (Some v) => Done v w
    | Some None => Fault (Indeterminate x) w
    | None => Fault (Undeclared x) w
    end.
End World.

Arguments Done {backend A} a w.
Arguments Blocked {backend A} w.
Arguments Fault {backend A} f w.

Declare Scope facade_scope.
Delimit Scope facade_scope with facade.
Notation "x <- m ;; k" := (bind m (fun x => k))
  (at level 61, m at next level, right associativity) : facade_scope.
Notation "s ;; k" := (bind s (fun _ => k))
  (at level 61, right associativity) : facade_scope.
Local Open Scope facade_scope.

(** Modelled from the spec: [JANUS_PRINT] comes from [debug.h], which is not
    part of this header.  The spec's Trace Sink accepts one formatted line
    per call; the line is the printf rendering of the format and its
    arguments. *)
Definition JANUS_PRINT {backend : PrimitiveBackend} {sink : TraceSink}
    (fmt : string) (args : list parg) : M unit :=
  fun w => Done tt (record (EvPrint (sprintf fmt args)) w).

(** Modelled from the spec: [G_USEC_PER_SEC] is GLib's constant, not defined
    in this header; the spec's example (1_500_000 microseconds are 1 second
    and 500_000_000 nanoseconds) fixes it at one million. *)
Definition G_USEC_PER_SEC : Z := 1000000.

(** A C string literal as the compiler stores it: the escape [\n] becomes
    the newline character.  The formats below are the header's own
    literals. *)
Fixpoint lit (s : string) : string :=
  match s with
  | EmptyString => EmptyString
  | String "\"%char (String "n"%char rest) => String "010"%char (lit rest)
  | String ch rest => String ch (lit rest)
  end.

(** The arguments every trace point of the header passes after its format:
    [__FILE__, __FUNCTION__, __LINE__, a]. *)
Definition site_args (here : callsite) (a : Z) : list parg :=
  [PStr (cs_file here); PStr (cs_function here); PInt (cs_line here); PPtr a].

(** ** Integer arithmetic of the deadline conversion

    The deadline is a [gint64]; [time_t] and [long] are taken at their LP64
    width of 64 bits.  Division and remainder truncate toward zero. *)
Definition wrap64 (z : Z) : Z := (z + 2 ^ 63) mod 2 ^ 64 - 2 ^ 63.
Definition c_div (x y : Z) : Z := wrap64 (Z.quot x y).
Definition c_rem (x y : Z) : Z := wrap64 (Z.rem x y).
Definition c_mul (x y : Z) : Z := wrap64 (x * y).

Record timespec : Type := { tv_sec : Z; tv_nsec : Z }.

(** The deadline argument as the caller writes it, as far as the operators
    around it in the header matter: a tree as the C grammar parses it (the
    right operand of [+] and [-] is no bare sum or difference). *)
Inductive cexpr : Type :=
| Atom (v : Z)               (* an identifier or a constant whose value is [v] *)
| Paren (e : cexpr)          (* [( e )] *)
| Plus (e1 e2 : cexpr)       (* [e1 + e2] *)
| Minus (e1 e2 : cexpr)      (* [e1 - e2] *)
| Times (e1 e2 : cexpr)      (* [e1 * e2] *)
| Over (e1 e2 : cexpr)       (* [e1 / e2] *)
| Modulo (e1 e2 : cexpr)     (* [e1 % e2] *).

Fixpoint eval (e : cexpr) : Z :=
  match e with
  | Atom v => v
  | Paren e' => eval e'
  | Plus e1 e2 => wrap64 (eval e1 + eval e2)
  | Minus e1 e2 => wrap64 (eval e1 - eval e2)
  | Times e1 e2 => c_mul (eval e1) (eval e2)
  | Over e1 e2 => c_div (eval e1) (eval e2)
  | Modulo e1 e2 => c_rem (eval e1) (eval e2)
  end.

(** [paste op e g] is what the compiler reads when the header writes the
    argument [e] out and follows it with a multiplicative operator and [g],
    as in [c / G_USEC_PER_SEC]: the operator binds tighter than [+] and [-],
    so it takes the last term of [e] only. *)
Fixpoint paste (op : cexpr -> cexpr -> cexpr) (e g : cexpr) : cexpr :=
  match e with
  | Plus e1 e2 => Plus e1 (paste op e2 g)
  | Minus e1 e2 => Minus e1 (paste op e2 g)
  | _ => op e g
  end.

(** ** The arm [#ifdef USE_PTHREAD_MUTEX] (lines 20 to 69)

    A macro whose replacement list is an expression is an [M Z]; one whose
    replacement list is a statement is an [M unit].  The empty statement a
    stray [;] leaves behind is not written. *)
Module Pthread.
Section Macros.
Context {backend : PrimitiveBackend} {sink : TraceSink}.
Variable here : callsite.

Definition janus_mutex_init (a : Z) : M Z :=
  call pthread_mutex_init [VPtr a; VNull].

Definition janus_mutex_destroy (a : Z) : M Z :=
  call pthread_mutex_destroy [VPtr a].

Definition janus_mutex_lock_nodebug (a : Z) : M Z :=
  call pthread_mutex_lock [VPtr a].

Definition janus_mutex_lock_debug (a : Z) : M unit :=
  block (JANUS_PRINT (lit "[%s:%s:%d:lock] %p\n") (site_args here a) ;;
         expr_stmt (call pthread_mutex_lock [VPtr a])).

Definition janus_mutex_lock (a : Z) : M unit :=
  block (d <- read_lock_debug ;;
         if_ (lnot d)
           (block (expr_stmt (janus_mutex_lock_nodebug a)))
           (block (janus_mutex_lock_debug a))).

Definition janus_mutex_trylock_nodebug (a : Z) : M unit :=
  block (r <- call pthread_mutex_trylock [VPtr a] ;;
         assign "ret" (lnot r)).

Definition janus_mutex_trylock_debug (a : Z) : M unit :=
  block (JANUS_PRINT (lit "[%s:%s:%d:trylock] %p\n") (site_args here a) ;;
         r <- call pthread_mutex_trylock [VPtr a] ;;
         assign "ret" (lnot r)).

Definition janus_mutex_trylock (a : Z) : M Z :=
  block (declare c_int "ret" ;;
         d <- read_lock_debug ;;
         if_ (lnot d)
           (block (janus_mutex_trylock_nodebug a))
           (block (janus_mutex_trylock_debug a)) ;;
         rvalue "ret").

Definition janus_mutex_unlock_nodebug (a : Z) : M Z :=
  call pthread_mutex_unlock [VPtr a].

Definition janus_mutex_unlock_debug (a : Z) : M unit :=
  block (JANUS_PRINT (lit "[%s:%s:%d:unlock] %p\n") (site_args here a) ;;
         expr_stmt (call pthread_mutex_unlock [VPtr a])).

Definition janus_mutex_unlock (a : Z) : M unit :=
  block (d <- read_lock_debug ;;
         if_ (lnot d)
           (block (expr_stmt (janus_mutex_unlock_nodebug a)))
           (block (janus_mutex_unlock_debug a))).

Definition janus_condition_init (a : Z) : M Z :=
  call pthread_cond_init [VPtr a; VNull].

Definition janus_condition_destroy (a : Z) : M Z :=
  call pthread_cond_destroy [VPtr a].

(** Lines 56, 66 and 68 are a call followed by [;].  The [;] ends the
    statement the invocation stands in, so the invocation has the value of
    the call: [v = janus_condition_signal(x);] stores it. *)
Definition janus_condition_wait (a b : Z) : M Z :=
  call pthread_cond_wait [VPtr a; VPtr b].

(** Lines 58 to 64.  [c] is written out as it stands in [c / G_USEC_PER_SEC]
    and inside the parentheses of [(c % G_USEC_PER_SEC)*1000]. *)
Definition janus_condition_wait_until (a b : Z) (c : cexpr) : M unit :=
  block (let jct :=
           {| tv_sec := eval (paste Over c (Atom G_USEC_PER_SEC));
              tv_nsec := eval (Times (Paren (paste Modulo c (Atom G_USEC_PER_SEC)))
                                     (Atom 1000)) |} in
         expr_stmt (call pthread_cond_timedwait
                      [VPtr a; VPtr b; VTimespec (tv_sec jct) (tv_nsec jct)])).

Definition janus_condition_signal (a : Z) : M Z :=
  call pthread_cond_signal [VPtr a].

Definition janus_condition_broadcast (a : Z) : M Z :=
  call pthread_cond_broadcast [VPtr a].
End Macros.
End Pthread.

(** ** The arm [#else] (lines 72 to 167): GLib primitives, and the rwlock *)
Module GLib.
Section Macros.
Context {backend : PrimitiveBackend} {sink : TraceSink}.
Variable here : callsite.

Definition janus_mutex_init (a : Z) : M Z := call g_mutex_init [VPtr a].

Definition janus_mutex_destroy (a : Z) : M Z := call g_mutex_clear [VPtr a].

Definition janus_mutex_lock_nodebug (a : Z) : M Z := call g_mutex_lock [VPtr a].

Definition janus_mutex_lock_debug (a : Z) : M unit :=
  block (JANUS_PRINT (lit "[%s:%s:%d:lock] %p\n") (site_args here a) ;;
         expr_stmt (call g_mutex_lock [VPtr a])).

Definition janus_mutex_lock (a : Z) : M unit :=
  block (d <- read_lock_debug ;;
         if_ (lnot d)
           (block (expr_stmt (janus_mutex_lock_nodebug a)))
           (block (janus_mutex_lock_debug a))).

Definition janus_mutex_trylock_nodebug (a : Z) : M unit :=
  block (r <- call g_mutex_trylock [VPtr a] ;; assign "ret" r).

Definition janus_mutex_trylock_debug (a : Z) : M unit :=
  block (JANUS_PRINT (lit "[%s:%s:%d:trylock] %p\n") (site_args here a) ;;
         r <- call g_mutex_trylock [VPtr a] ;;
         assign "ret" r).

Definition janus_mutex_trylock (a : Z) : M Z :=
  block (declare c_gboolean "ret" ;;
         d <- read_lock_debug ;;
         if_ (lnot d)
           (block (janus_mutex_trylock_nodebug a))
           (block (janus_mutex_trylock_debug a)) ;;
         rvalue "ret").

Definition janus_mutex_unlock_nodebug (a : Z) : M Z := call g_mutex_unlock [VPtr a].

Definition janus_mutex_unlock_debug (a : Z) : M unit :=
  block (JANUS_PRINT (lit "[%s:%s:%d:unlock] %p\n") (site_args here a) ;;
         expr_stmt (call g_mutex_unlock [VPtr a])).

Definition janus_mutex_unlock (a : Z) : M unit :=
  block (d <- read_lock_debug ;;
         if_ (lnot d)
           (block (expr_stmt (janus_mutex_unlock_nodebug a)))
           (block (janus_mutex_unlock_debug a))).

Definition janus_condition_init (a : Z) : M Z := call g_cond_init [VPtr a].

Definition janus_condition_destroy (a : Z) : M Z := call g_cond_clear [VPtr a].

(** Lines 106 to 112 are a call followed by [;], as in the other arm.  In
    line 108 [c] is a function argument, evaluated as a whole. *)
Definition janus_condition_wait (a b : Z) : M Z :=
  call g_cond_wait [VPtr a; VPtr b].

Definition janus_condition_wait_until (a b : Z) (c : cexpr) : M Z :=
  call g_cond_wait_until [VPtr a; VPtr b; VInt (eval c)].

Definition janus_condition_signal (a : Z) : M Z :=
  call g_cond_signal [VPtr a].

Definition janus_condition_broadcast (a : Z) : M Z :=
  call g_cond_broadcast [VPtr a].

(** *** [janus_rwlock] (lines 114 to 167) *)

Definition janus_rwlock_init_nodebug (a : Z) : M Z := call g_rw_lock_init [VPtr a].

Definition janus_rwlock_init_debug (a : Z) : M unit :=
  block (JANUS_PRINT (lit "[%s:%s:%d:rw_init] %p\n") (site_args here a) ;;
         expr_stmt (call g_rw_lock_init [VPtr a])).

Definition janus_rwlock_init (a : Z) : M unit :=
  block (d <- read_lock_debug ;;
         if_ (lnot d)
           (block (expr_stmt (janus_rwlock_init_nodebug a)))
           (block (janus_rwlock_init_debug a))).

Definition janus_rwlock_destroy_nodebug (a : Z) : M Z := call g_rw_lock_clear [VPtr a].

Definition janus_rwlock_destroy_debug (a : Z) : M unit :=
  block (JANUS_PRINT (lit "[%s:%s:%d:rw_dectroy] %p\n") (site_args here a) ;;
         expr_stmt (janus_rwlock_destroy_nodebug a)).

Definition janus_rwlock_destroy (a : Z) : M unit :=
  block (d <- read_lock_debug ;;
         if_ (lnot d)
           (block (expr_stmt (janus_rwlock_destroy_nodebug a)))
           (block (janus_rwlock_destroy_debug a))).

Definition janus_rwlock_reader_lock_nodebug (a : Z) : M Z :=
  call g_rw_lock_reader_lock [VPtr a].

Definition janus_rwlock_reader_lock_debug (a : Z) : M unit :=
  block (JANUS_PRINT (lit "[%s:%s:%d:reader_lock] %p\n") (site_args here a) ;;
         expr_stmt (janus_rwlock_reader_lock_nodebug a)).

Definition janus_rwlock_reader_lock (a : Z) : M unit :=
  block (d <- read_lock_debug ;;
         if_ (lnot d)
           (block (expr_stmt (janus_rwlock_reader_lock_nodebug a)))
           (block (janus_rwlock_reader_lock_debug a))).

Definition janus_rwlock_reader_trylock_nodebug (a : Z) : M unit :=
  block (r <- call g_rw_lock_reader_trylock [VPtr a] ;; assign "ret" r).

(** Line 141 names [janus_rwlock_reader_trylock], the wrapper of line 143
    that invokes this very macro; [self] is what that name stands for
    where this replacement list is rescanned. *)
Definition janus_rwlock_reader_trylock_debug (self : Z -> M Z) (a : Z) : M unit :=
  block (JANUS_PRINT (lit "[%s:%s:%d:reader_trylock] %p\n") (site_args here a) ;;
         r <- self a ;;
         assign "ret" r).

(** Line 143.  The statement expression declares no [ret] of its own.
    Inside the wrapper's expansion its own name is not replaced again. *)
Definition janus_rwlock_reader_trylock (a : Z) : M Z :=
  block (d <- read_lock_debug ;;
         if_ (lnot d)
           (block (janus_rwlock_reader_trylock_nodebug a))
           (block (janus_rwlock_reader_trylock_debug
                     (fun a' => call_unexpanded "janus_rwlock_reader_trylock" [VPtr a'])
                     a)) ;;
         rvalue "ret").

Definition janus_rwlock_reader_unlock_nodebug (a : Z) : M Z :=
  call g_rw_lock_reader_unlock [VPtr a].

Definition janus_rwlock_reader_unlock_debug (a : Z) : M unit :=
  block (JANUS_PRINT (lit "[%s:%s:%d:reader_unlock] %p\n") (site_args here a) ;;
         expr_stmt (janus_rwlock_reader_unlock_nodebug a)).

Definition janus_rwlock_reader_unlock (a : Z) : M unit :=
  block (d <- read_lock_debug ;;
         if_ (lnot d)
           (block (expr_stmt (janus_rwlock_reader_unlock_nodebug a)))
           (block (janus_rwlock_reader_unlock_debug a))).

(** Line 153, defined in the header after its user of line 151. *)
Definition janus_rwlock_writer_lock_nodebug (a : Z) : M Z :=
  call g_rw_lock_writer_lock [VPtr a].

Definition janus_rwlock_writer_lock_debug (a : Z) : M unit :=
  block (JANUS_PRINT (lit "[%s:%s:%d:writer_unlock] %p\n") (site_args here a) ;;
         expr_stmt (janus_rwlock_writer_lock_nodebug a)).

Definition janus_rwlock_writer_lock (a : Z) : M unit :=
  block (d <- read_lock_debug ;;
         if_ (lnot d)
           (block (expr_stmt (janus_rwlock_writer_lock_nodebug a)))
           (block (janus_rwlock_writer_lock_debug a))).

Definition janus_rwlock_writer_trylock_nodebug (a : Z) : M unit :=
  block (r <- call g_rw_lock_writer_trylock [VPtr a] ;; assign "ret" r).

(** Line 159 names [janus_rwlock_writer_trylock], the wrapper of line 161;
    [self] as in [janus_rwlock_reader_trylock_debug]. *)
Definition janus_rwlock_writer_trylock_debug (self : Z -> M Z) (a : Z) : M unit :=
  block (JANUS_PRINT (lit "[%s:%s:%d:writer_trylock] %p\n") (site_args here a) ;;
         r <- self a ;;
         assign "ret" r).

(** Line 161.  The branch taken when the flag is clear is
    [janus_rwlock_reader_trylock_nodebug]. *)
Definition janus_rwlock_writer_trylock (a : Z) : M Z :=
  block (declare c_gboolean "ret" ;;
         d <- read_lock_debug ;;
         if_ (lnot d)
           (block (janus_rwlock_reader_trylock_nodebug a))
           (block (janus_rwlock_writer_trylock_debug
                     (fun a' => call_unexpanded "janus_rwlock_writer_trylock" [VPtr a'])
                     a)) ;;
         rvalue "ret").

Definition janus_rwlock_writer_unlock_nodebug (a : Z) : M Z :=
  call g_rw_lock_writer_unlock [VPtr a].

Definition janus_rwlock_writer_unlock_debug (a : Z) : M unit :=
  block (JANUS_PRINT (lit "[%s:%s:%d:writer_unlock] %p\n") (site_args here a) ;;
         expr_stmt (janus_rwlock_writer_unlock_nodebug a)).

Definition janus_rwlock_writer_unlock (a : Z) : M unit :=
  block (d <- read_lock_debug ;;
         if_ (lnot d)
           (block (expr_stmt (janus_rwlock_writer_unlock_nodebug a)))
           (block (janus_rwlock_writer_unlock_debug a))).
End Macros.
End GLib.

(** ** The public operations and the build-time selection *)

Inductive selection : Type := USE_PTHREAD_MUTEX | GLIB_DEFAULT.

(** An invocation of a facade operation with its arguments, each given by
    its value: the argument is an identifier or a constant. *)
Inductive op : Type :=
| mutex_init (a : Z) | mutex_destroy (a : Z)
| mutex_lock (a : Z) | mutex_trylock (a : Z) | mutex_unlock (a : Z)
| condition_init (a : Z) | condition_destroy (a : Z)
| condition_wait (a b : Z) | condition_wait_until (a b c : Z)
| condition_signal (a : Z) | condition_broadcast (a : Z)
| rwlock_init (a : Z) | rwlock_destroy (a : Z)
| rwlock_reader_lock (a : Z) | rwlock_reader_trylock (a : Z) | rwlock_reader_unlock (a : Z)
| rwlock_writer_lock (a : Z) | rwlock_writer_trylock (a : Z) | rwlock_writer_unlock (a : Z).

Definition op_name (o : op) : string :=
  match o with
  | mutex_init _ => "janus_mutex_init"
  | mutex_destroy _ => "janus_mutex_destroy"
  | mutex_lock _ => "janus_mutex_lock"
  | mutex_trylock _ => "janus_mutex_trylock"
  | mutex_unlock _ => "janus_mutex_unlock"
  | condition_init _ => "janus_condition_init"
  | condition_destroy _ => "janus_condition_destroy"
  | condition_wait _ _ => "janus_condition_wait"
  | condition_wait_until _ _ _ => "janus_condition_wait_until"
  | condition_signal _ => "janus_condition_signal"
  | condition_broadcast _ => "janus_condition_broadcast"
  | rwlock_init _ => "janus_rwlock_init"
  | rwlock_destroy _ => "janus_rwlock_destroy"
  | rwlock_reader_lock _ => "janus_rwlock_reader_lock"
  | rwlock_reader_trylock _ => "janus_rwlock_reader_trylock"
  | rwlock_reader_unlock _ => "janus_rwlock_reader_unlock"
  | rwlock_writer_lock _ => "janus_rwlock_writer_lock"
  | rwlock_writer_trylock _ => "janus_rwlock_writer_trylock"
  | rwlock_writer_unlock _ => "janus_rwlock_writer_unlock"
  end.

(** The handle the operation is invoked on (its first argument). *)
Definition handle (o : op) : Z :=
  match o with
  | mutex_init a | mutex_destroy a | mutex_lock a | mutex_trylock a | mutex_unlock a
  | condition_init a | condition_destroy a | condition_wait a _
  | condition_wait_until a _ _ | condition_signal a | condition_broadcast a
  | rwlock_init a | rwlock_destroy a | rwlock_reader_lock a
  | rwlock_reader_trylock a | rwlock_reader_unlock a | rwlock_writer_lock a
  | rwlock_writer_trylock a | rwlock_writer_unlock a => a
  end.

Section Facade.
Context {backend : PrimitiveBackend} {sink : TraceSink}.

(** An expression macro yields its value, a statement macro yields none;
    nor does an expression whose primitive is [void] (see [is_void]). *)
Definition as_expr (m : M Z) : M (option Z) := r <- m ;; ret (Some r).
Definition as_stmt (m : M unit) : M (option Z) := m ;; ret None.
Definition as_void (m : M Z) : M (option Z) := m ;; ret None.

(** What the preprocessor makes of an invocation under each selection;
    [None] where the selected arm defines no macro of that name. *)
Definition expand (sel : selection) (here : callsite) (o : op) : option (M (option Z)) :=
  match sel, o with
  | USE_PTHREAD_MUTEX, mutex_init a => Some (as_expr (Pthread.janus_mutex_init a))
  | USE_PTHREAD_MUTEX, mutex_destroy a => Some (as_expr (Pthread.janus_mutex_destroy a))
  | USE_PTHREAD_MUTEX, mutex_lock a => Some (as_stmt (Pthread.janus_mutex_lock here a))
  | USE_PTHREAD_MUTEX, mutex_trylock a => Some (as_expr (Pthread.janus_mutex_trylock here a))
  | USE_PTHREAD_MUTEX, mutex_unlock a => Some (as_stmt (Pthread.janus_mutex_unlock here a))
  | USE_PTHREAD_MUTEX, condition_init a => Some (as_expr (Pthread.janus_condition_init a))
  | USE_PTHREAD_MUTEX, condition_destroy a => Some (as_expr (Pthread.janus_condition_destroy a))
  | USE_PTHREAD_MUTEX, condition_wait a b => Some (as_expr (Pthread.janus_condition_wait a b))
  | USE_PTHREAD_MUTEX, condition_wait_until a b c =>
      Some (as_stmt (Pthread.janus_condition_wait_until a b (Atom c)))
  | USE_PTHREAD_MUTEX, condition_signal a => Some (as_expr (Pthread.janus_condition_signal a))
  | USE_PTHREAD_MUTEX, condition_broadcast a =>
      Some (as_expr (Pthread.janus_condition_broadcast a))
  | USE_PTHREAD_MUTEX, _ => None
  | GLIB_DEFAULT, mutex_init a => Some (as_void (GLib.janus_mutex_init a))
  | GLIB_DEFAULT, mutex_destroy a => Some (as_void (GLib.janus_mutex_destroy a))
  | GLIB_DEFAULT, mutex_lock a => Some (as_stmt (GLib.janus_mutex_lock here a))
  | GLIB_DEFAULT, mutex_trylock a => Some (as_expr (GLib.janus_mutex_trylock here a))
  | GLIB_DEFAULT, mutex_unlock a => Some (as_stmt (GLib.janus_mutex_unlock here a))
  | GLIB_DEFAULT, condition_init a => Some (as_void (GLib.janus_condition_init a))
  | GLIB_DEFAULT, condition_destroy a => Some (as_void (GLib.janus_condition_destroy a))
  | GLIB_DEFAULT, condition_wait a b => Some (as_void (GLib.janus_condition_wait a b))
  | GLIB_DEFAULT, condition_wait_until a b c =>
      Some (as_expr (GLib.janus_condition_wait_until a b (Atom c)))
  | GLIB_DEFAULT, condition_signal a => Some (as_void (GLib.janus_condition_signal a))
  | GLIB_DEFAULT, condition_broadcast a => Some (as_void (GLib.janus_condition_broadcast a))
  | GLIB_DEFAULT, rwlock_init a => Some (as_stmt (GLib.janus_rwlock_init here a))
  | GLIB_DEFAULT, rwlock_destroy a => Some (as_stmt (GLib.janus_rwlock_destroy here a))
  | GLIB_DEFAULT, rwlock_reader_lock a => Some (as_stmt (GLib.janus_rwlock_reader_lock here a))
  | GLIB_DEFAULT, rwlock_reader_trylock a =>
      Some (as_expr (GLib.janus_rwlock_reader_trylock here a))
  | GLIB_DEFAULT, rwlock_reader_unlock a =>
      Some (as_stmt (GLib.janus_rwlock_reader_unlock here a))
  | GLIB_DEFAULT, rwlock_writer_lock a => Some (as_stmt (GLib.janus_rwlock_writer_lock here a))
  | GLIB_DEFAULT, rwlock_writer_trylock a =>
      Some (as_expr (GLib.janus_rwlock_writer_trylock here a))
  | GLIB_DEFAULT, rwlock_writer_unlock a =>
      Some (as_stmt (GLib.janus_rwlock_writer_unlock here a))
  end.

(** Running an invocation.  A name the selected arm does not define is an
    identifier without a declaration. *)
Definition invoke (sel : selection) (here : callsite) (o : op) : M (option Z) :=
  match expand sel here o with
  | Some m => m
  | None => fun w => Fault (Undeclared (op_name o)) w
  end.

(** A run of a program seen from the facade: invocations, each at its own
    place in the source, and writes to the flag by whoever owns it. *)
Inductive action : Type :=
| Toggle (v : Z)
| Invoke (here : callsite) (o : op).

Definition set_lock_debug (v : Z) (w : world) : world :=
  mkWorld v (frames w) (log w) (locks w).

Definition step (sel : selection) (x : action) : M unit :=
  match x with
  | Toggle v => fun w => Done tt (set_lock_debug v w)
  | Invoke here o => invoke sel here o ;; ret tt
  end.

Fixpoint run (sel : selection) (xs : list action) : M unit :=
  match xs with
  | [] => ret tt
  | x :: xs' => step sel x ;; run sel xs'
  end.

(** The lines, and the backend calls, among some events, in the order of
    the events. *)
Definition printed (evs : list event) : list string :=
  flat_map (fun e => match e with EvPrint s => [s] | _ => [] end) evs.

Definition called (evs : list event) : list (prim * list value) :=
  flat_map (fun e => match e with EvCall f args => [(f, args)] | _ => [] end) evs.

(** Everything the trace sink received, and every call the backend
    received, according to a log, oldest first. *)
Definition lines (l : list event) : list string := rev (printed l).

Definition calls (l : list event) : list (prim * list value) := rev (called l).

Definition flag_reads (l : list event) : nat :=
  List.length (filter (fun e => match e with EvFlag => true | _ => false end) l).

(** [added w w' evs]: from [w] to [w'] the events [evs] happened, in this
    order, and nothing that was logged before changed. *)
Definition added (w w' : world) (evs : list event) : Prop :=
  log w' = (rev evs ++ log w)%list.
End Facade.

(** The shape of a trace line: [[<file>:<function>:<line>:<operation>] <handle-identity>],
    closed by a newline. *)
Definition trace_line {sink : TraceSink} (here : callsite) (operation : string) (a : Z) : string :=
  "[" ++ cs_file here ++ ":" ++ cs_function here ++ ":" ++ show_int (cs_line here)
      ++ ":" ++ operation ++ "] " ++ show_pointer a ++ String "010"%char "".

(** ** Reference collaborators, used to run the facade

    The model keeps, per handle, who holds what.  An acquisition that
    cannot succeed blocks; a try variant reports instead ([EBUSY] is 16 for
    pthreads, [FALSE] for GLib).  Threads are not told apart: every facade
    operation makes at most one call into the backend, so a concurrent run
    is an interleaving of whole calls. *)
Module Model.
Record state : Type := {
  held : list Z;      (* mutexes that are locked *)
  readers : list Z;   (* one entry per reader lock held *)
  writers : list Z    (* rwlocks held by a writer *)
}.

Definition mem (h : Z) (l : list Z) : bool := existsb (Z.eqb h) l.

Fixpoint remove_one (h : Z) (l : list Z) : list Z :=
  match l with
  | [] => []
  | x :: l' => if Z.eqb h x then l' else x :: remove_one h l'
  end.

Definition EBUSY : Z := 16.
Definition ETIMEDOUT : Z := 110.

(** Modelled from the spec: the primitives themselves (GLib, pthreads)
    are not in the header.  Mutual exclusion for a mutex; for a rwlock any
    number of readers, and a writer only when nobody holds it. *)
Definition exec (f : prim) (args : list value) (s : state) : reply state :=
  match f, args with
  | pthread_mutex_lock, [VPtr h] | g_mutex_lock, [VPtr h] =>
      if mem h (held s) then Blocks
      else Returns 0 {| held := h :: held s; readers := readers s; writers := writers s |}
  | pthread_mutex_trylock, [VPtr h] =>
      if mem h (held s) then Returns EBUSY s
      else Returns 0 {| held := h :: held s; readers := readers s; writers := writers s |}
  | g_mutex_trylock, [VPtr h] =>
      if mem h (held s) then Returns 0 s
      else Returns 1 {| held := h :: held s; readers := readers s; writers := writers s |}
  | pthread_mutex_unlock, [VPtr h] | g_mutex_unlock, [VPtr h] =>
      Returns 0 {| held := remove_one h (held s); readers := readers s; writers := writers s |}
  | g_rw_lock_reader_lock, [VPtr h] =>
      if mem h (writers s) then Blocks
      else Returns 0 {| held := held s; readers := h :: readers s; writers := writers s |}
  | g_rw_lock_reader_trylock, [VPtr h] =>
      if mem h (writers s) then Returns 0 s
      else Returns 1 {| held := held s; readers := h :: readers s; writers := writers s |}
  | g_rw_lock_reader_unlock, [VPtr h] =>
      Returns 0 {| held := held s; readers := remove_one h (readers s); writers := writers s |}
  | g_rw_lock_writer_lock, [VPtr h] =>
      if mem h (writers s) || mem h (readers s) then Blocks
      else Returns 0 {| held := held s; readers := readers s; writers := h :: writers s |}
  | g_rw_lock_writer_trylock, [VPtr h] =>
      if mem h (writers s) || mem h (readers s) then Returns 0 s
      else Returns 1 {| held := held s; readers := readers s; writers := h :: writers s |}
  | g_rw_lock_writer_unlock, [VPtr h] =>
      Returns 0 {| held := held s; readers := readers s; writers := remove_one h (writers s) |}
  | pthread_cond_wait, _ | g_cond_wait, _ => Blocks
  | pthread_cond_timedwait, _ => Returns ETIMEDOUT s
  | _, _ => Returns 0 s
  end.

Definition backend : PrimitiveBackend := {| bstate := state; run_prim := exec |}.

(** [%p] the way glibc prints it. *)
Definition sink : TraceSink :=
  {| show_pointer := fun p =>
       if p =? 0 then "(nil)"
       else "0x" ++ HexadecimalString.NilZero.string_of_uint (N.to_hex_uint (Z.to_N p)) |}.

Definition idle : state := {| held := []; readers := []; writers := [] |}.

(** A fresh start: flag at [flag], no enclosing variables, nothing logged,
    nothing held. *)
Definition start (flag : Z) : @world backend := @mkWorld backend flag [] [] idle.

Definition at_main : callsite :=
  {| cs_file := "janus.c"; cs_function := "main"; cs_line := 42 |}.

(** A world in which the mutex [7] is locked and something was logged. *)
Definition busy (flag : Z) : @world backend :=
  @mkWorld backend flag [] [EvCall g_mutex_lock [VPtr 7]]
           {| held := [7]; readers := []; writers := [] |}.

(** The facade and a run of it on these collaborators. *)
Definition facade : selection -> callsite -> op -> @M backend (option Z) :=
  @invoke backend sink.

Definition program : selection -> list (@action) -> @M backend unit :=
  @run backend sink.
End Model.

(** ** Vocabulary of the statements *)

Definition is_condition_op (o : op) : bool :=
  match o with
  | condition_init _ | condition_destroy _ | condition_wait _ _
  | condition_wait_until _ _ _ | condition_signal _ | condition_broadcast _ => true
  | _ => false
  end.

Definition is_rwlock_op (o : op) : bool :=
  match o with
  | rwlock_init _ | rwlock_destroy _ | rwlock_reader_lock _ | rwlock_reader_trylock _
  | rwlock_reader_unlock _ | rwlock_writer_lock _ | rwlock_writer_trylock _
  | rwlock_writer_unlock _ => true
  | _ => false
  end.

Definition is_rwlock_trylock (o : op) : bool :=
  match o with
  | rwlock_reader_trylock _ | rwlock_writer_trylock _ => true
  | _ => false
  end.

(** The operations a selection defines: the [#define]s of its arm. *)
Definition defines (sel : selection) (o : op) : bool :=
  match sel with
  | USE_PTHREAD_MUTEX => negb (is_rwlock_op o)
  | GLIB_DEFAULT => true
  end.

(** The operations whose replacement list tests [lock_debug]: the wrappers
    over a [_nodebug] and a [_debug] variant. *)
Definition reads_flag (sel : selection) (o : op) : bool :=
  match o with
  | mutex_lock _ | mutex_trylock _ | mutex_unlock _ => true
  | _ => is_rwlock_op o && defines sel o
  end.

(** The primitive the spec pairs with each operation of a selection, with
    the arguments the operation hands over. *)
Definition delegate (sel : selection) (o : op) : option (prim * list value) :=
  match sel, o with
  | USE_PTHREAD_MUTEX, mutex_init a => Some (pthread_mutex_init, [VPtr a; VNull])
  | USE_PTHREAD_MUTEX, mutex_destroy a => Some (pthread_mutex_destroy, [VPtr a])
  | USE_PTHREAD_MUTEX, mutex_lock a => Some (pthread_mutex_lock, [VPtr a])
  | USE_PTHREAD_MUTEX, mutex_trylock a => Some (pthread_mutex_trylock, [VPtr a])
  | USE_PTHREAD_MUTEX, mutex_unlock a => Some (pthread_mutex_unlock, [VPtr a])
  | USE_PTHREAD_MUTEX, condition_init a => Some (pthread_cond_init, [VPtr a; VNull])
  | USE_PTHREAD_MUTEX, condition_destroy a => Some (pthread_cond_destroy, [VPtr a])
  | USE_PTHREAD_MUTEX, condition_wait a b => Some (pthread_cond_wait, [VPtr a; VPtr b])
  | USE_PTHREAD_MUTEX, condition_wait_until a b c =>
      Some (pthread_cond_timedwait,
            [VPtr a; VPtr b;
             VTimespec (c_div c G_USEC_PER_SEC) (c_mul (c_rem c G_USEC_PER_SEC) 1000)])
  | USE_PTHREAD_MUTEX, condition_signal a => Some (pthread_cond_signal, [VPtr a])
  | USE_PTHREAD_MUTEX, condition_broadcast a => Some (pthread_cond_broadcast, [VPtr a])
  | USE_PTHREAD_MUTEX, _ => None
  | GLIB_DEFAULT, mutex_init a => Some (g_mutex_init, [VPtr a])
  | GLIB_DEFAULT, mutex_destroy a => Some (g_mutex_clear, [VPtr a])
  | GLIB_DEFAULT, mutex_lock a => Some (g_mutex_lock, [VPtr a])
  | GLIB_DEFAULT, mutex_trylock a => Some (g_mutex_trylock, [VPtr a])
  | GLIB_DEFAULT, mutex_unlock a => Some (g_mutex_unlock, [VPtr a])
  | GLIB_DEFAULT, condition_init a => Some (g_cond_init, [VPtr a])
  | GLIB_DEFAULT, condition_destroy a => Some (g_cond_clear, [VPtr a])
  | GLIB_DEFAULT, condition_wait a b => Some (g_cond_wait, [VPtr a; VPtr b])
  | GLIB_DEFAULT, condition_wait_until a b c =>
      Some (g_cond_wait_until, [VPtr a; VPtr b; VInt c])
  | GLIB_DEFAULT, condition_signal a => Some (g_cond_signal, [VPtr a])
  | GLIB_DEFAULT, condition_broadcast a => Some (g_cond_broadcast, [VPtr a])
  | GLIB_DEFAULT, rwlock_init a => Some (g_rw_lock_init, [VPtr a])
  | GLIB_DEFAULT, rwlock_destroy a => Some (g_rw_lock_clear, [VPtr a])
  | GLIB_DEFAULT, rwlock_reader_lock a => Some (g_rw_lock_reader_lock, [VPtr a])
  | GLIB_DEFAULT, rwlock_reader_trylock a => Some (g_rw_lock_reader_trylock, [VPtr a])
  | GLIB_DEFAULT, rwlock_reader_unlock a => Some (g_rw_lock_reader_unlock, [VPtr a])
  | GLIB_DEFAULT, rwlock_writer_lock a => Some (g_rw_lock_writer_lock, [VPtr a])
  | GLIB_DEFAULT, rwlock_writer_trylock a => Some (g_rw_lock_writer_trylock, [VPtr a])
  | GLIB_DEFAULT, rwlock_writer_unlock a => Some (g_rw_lock_writer_unlock, [VPtr a])
  end.

(** The operations whose replacement list is a block in braces: the
    wrappers that are not trylocks, and [janus_condition_wait_until] of
    lines 58 to 64. *)
Definition expands_to_block (sel : selection) (o : op) : bool :=
  match sel, o with
  | _, mutex_lock _ | _, mutex_unlock _ => true
  | USE_PTHREAD_MUTEX, condition_wait_until _ _ _ => true
  | GLIB_DEFAULT, rwlock_init _ | GLIB_DEFAULT, rwlock_destroy _
  | GLIB_DEFAULT, rwlock_reader_lock _ | GLIB_DEFAULT, rwlock_reader_unlock _
  | GLIB_DEFAULT, rwlock_writer_lock _ | GLIB_DEFAULT, rwlock_writer_unlock _ => true
  | _, _ => false
  end.

(** What the caller gets to see of the primitive's result [r].  A trylock
    is a statement expression with the value of its [ret].  Of the others,
    an operation that expands to a block shows nothing; one that expands to
    an expression, or to a call followed by [;], shows the result when the
    primitive has one. *)
Definition visible (sel : selection) (o : op) (r : Z) : option Z :=
  match o with
  | mutex_trylock _ =>
      match sel with
      | USE_PTHREAD_MUTEX => Some (if r =? 0 then 1 else 0)
      | GLIB_DEFAULT => Some r
      end
  | rwlock_reader_trylock _ | rwlock_writer_trylock _ => Some r
  | _ =>
      if expands_to_block sel o then None
      else
        match delegate sel o with
        | Some (f, _) => if is_void f then None else Some r
        | None => None
        end
  end.


(** The operation tag each trace point of the header carries in its format
    (lines 33 to 45, 83 to 95 and 121 to 165). *)
Definition header_tag (o : op) : string :=
  match o with
  | mutex_lock _ => "lock"
  | mutex_trylock _ => "trylock"
  | mutex_unlock _ => "unlock"
  | rwlock_init _ => "rw_init"
  | rwlock_destroy _ => "rw_dectroy"
  | rwlock_reader_lock _ => "reader_lock"
  | rwlock_reader_trylock _ => "reader_trylock"
  | rwlock_reader_unlock _ => "reader_unlock"
  | rwlock_writer_lock _ => "writer_unlock"
  | rwlock_writer_trylock _ => "writer_trylock"
  | rwlock_writer_unlock _ => "writer_unlock"
  | _ => ""
  end.

(** The tag the spec's trace contract gives the operation. *)
Definition contract_tag (o : op) : string :=
  match o with
  | mutex_lock _ => "lock"
  | mutex_trylock _ => "trylock"
  | mutex_unlock _ => "unlock"
  | rwlock_init _ => "rw_init"
  | rwlock_destroy _ => "rw_destroy"
  | rwlock_reader_lock _ => "reader_lock"
  | rwlock_reader_trylock _ => "reader_trylock"
  | rwlock_reader_unlock _ => "reader_unlock"
  | rwlock_writer_lock _ => "writer_lock"
  | rwlock_writer_trylock _ => "writer_trylock"
  | rwlock_writer_unlock _ => "writer_unlock"
  | _ => ""
  end.

(** The two primitive families side by side. *)
Definition twin (f : prim) : option prim :=
  match f with
  | pthread_mutex_init => Some g_mutex_init
  | pthread_mutex_destroy => Some g_mutex_clear
  | pthread_mutex_lock => Some g_mutex_lock
  | pthread_mutex_trylock => Some g_mutex_trylock
  | pthread_mutex_unlock => Some g_mutex_unlock
  | pthread_cond_init => Some g_cond_init
  | pthread_cond_destroy => Some g_cond_clear
  | pthread_cond_wait => Some g_cond_wait
  | pthread_cond_timedwait => Some g_cond_wait_until
  | pthread_cond_signal => Some g_cond_signal
  | pthread_cond_broadcast => Some g_cond_broadcast
  | _ => None
  end.

(** A sequence of invocations with no write to the flag in between. *)
Definition invocations (xs : list (callsite * op)) : list action :=
  map (fun x => Invoke (fst x) (snd x)) xs.

(** *** Three readings of the spec that the header does not bear out *)

Section AsStated.
Context {backend : PrimitiveBackend} {sink : TraceSink}.

(** Whatever value an operation yields is the result of the backend
    operation it stands for, unchanged. *)
Definition yields_backend_result_unchanged : Prop :=
  forall (sel : selection) (here : callsite) (o : op) (w w' : world)
         (f : prim) (args : list value) (r v : Z) (s : bstate),
    delegate sel o = Some (f, args) ->
    run_prim f args (locks w) = Returns r s ->
    invoke sel here o w = Done (Some v) w' ->
    v = r.

(** Every operation one selection makes available is available under the
    other. *)
Definition selections_define_the_same_operations : Prop :=
  forall (here : callsite) (o : op),
    expand GLIB_DEFAULT here o <> None <-> expand USE_PTHREAD_MUTEX here o <> None.

(** Every operation evaluates [lock_debug] exactly once. *)
Definition every_operation_reads_the_flag_once : Prop :=
  forall (sel : selection) (here : callsite) (o : op) (w : world),
    defines sel o = true ->
    flag_reads (log (world_of (invoke sel here o w))) = S (flag_reads (log w)).
End AsStated.

(** *** Vocabulary for runs and for the variants used on their own *)

Section RunVocabulary.
Context {backend : PrimitiveBackend} {sink : TraceSink}.

(** Issuing primitives directly, one after the other; [None] when one of
    them does not come back. *)
Fixpoint direct (cs : list (prim * list value)) (s : bstate) : option bstate :=
  match cs with
  | [] => Some s
  | (f, args) :: cs' =>
      match run_prim f args s with
      | Returns _ s' => direct cs' s'
      | Blocks => None
      end
  end.

(** The primitives a run stands for, in program order. *)
Definition delegates_of (sel : selection) (xs : list action) : list (prim * list value) :=
  flat_map (fun x =>
              match x with
              | Invoke _ o => match delegate sel o with Some c => [c] | None => [] end
              | Toggle _ => []
              end) xs.

(** The actions of a run outside the two rwlock trylocks: a write to the
    flag, or an invocation the selection defines. *)
Definition plain (sel : selection) (x : action) : bool :=
  match x with
  | Toggle _ => true
  | Invoke _ o => defines sel o && negb (is_rwlock_trylock o)
  end.

(** The lines a run hands over when nothing stops it, the flag starting at
    [flag]: each invocation that tests the flag contributes its line while
    the flag, as last written, is not zero. *)
Fixpoint trace_of (sel : selection) (flag : Z) (xs : list action) : list string :=
  match xs with
  | [] => []
  | Toggle v :: xs' => trace_of sel v xs'
  | Invoke here o :: xs' =>
      ((if reads_flag sel o && negb (flag =? 0)
        then [trace_line here (header_tag o) (handle o)]
        else []) ++ trace_of sel flag xs')%list
  end.

(** The flag after the writes of a run. *)
Fixpoint flag_after (flag : Z) (xs : list action) : Z :=
  match xs with
  | [] => flag
  | Toggle v :: xs' => flag_after v xs'
  | Invoke _ _ :: xs' => flag_after flag xs'
  end.

Definition outcome_map {A} (g : world -> world) (o : outcome A) : outcome A :=
  match o with
  | Done a w => Done a (g w)
  | Blocked w => Blocked (g w)
  | Fault f w => Fault f (g w)
  end.

(** The [_nodebug] macro of an operation, invoked by name instead of through
    the wrapper, as a statement. *)
Definition nodebug_variant (sel : selection) (o : op) : option (M unit) :=
  match sel, o with
  | USE_PTHREAD_MUTEX, mutex_lock a => Some (expr_stmt (Pthread.janus_mutex_lock_nodebug a))
  | USE_PTHREAD_MUTEX, mutex_trylock a => Some (Pthread.janus_mutex_trylock_nodebug a)
  | USE_PTHREAD_MUTEX, mutex_unlock a => Some (expr_stmt (Pthread.janus_mutex_unlock_nodebug a))
  | GLIB_DEFAULT, mutex_lock a => Some (expr_stmt (GLib.janus_mutex_lock_nodebug a))
  | GLIB_DEFAULT, mutex_trylock a => Some (GLib.janus_mutex_trylock_nodebug a)
  | GLIB_DEFAULT, mutex_unlock a => Some (expr_stmt (GLib.janus_mutex_unlock_nodebug a))
  | GLIB_DEFAULT, rwlock_init a => Some (expr_stmt (GLib.janus_rwlock_init_nodebug a))
  | GLIB_DEFAULT, rwlock_destroy a => Some (expr_stmt (GLib.janus_rwlock_destroy_nodebug a))
  | GLIB_DEFAULT, rwlock_reader_lock a =>
      Some (expr_stmt (GLib.janus_rwlock_reader_lock_nodebug a))
  | GLIB_DEFAULT, rwlock_reader_trylock a => Some (GLib.janus_rwlock_reader_trylock_nodebug a)
  | GLIB_DEFAULT, rwlock_reader_unlock a =>
      Some (expr_stmt (GLib.janus_rwlock_reader_unlock_nodebug a))
  | GLIB_DEFAULT, rwlock_writer_lock a =>
      Some (expr_stmt (GLib.janus_rwlock_writer_lock_nodebug a))
  | GLIB_DEFAULT, rwlock_writer_trylock a => Some (GLib.janus_rwlock_writer_trylock_nodebug a)
  | GLIB_DEFAULT, rwlock_writer_unlock a =>
      Some (expr_stmt (GLib.janus_rwlock_writer_unlock_nodebug a))
  | _, _ => None
  end.

(** The [_debug] macro of an operation, invoked by name.  The two rwlock
    trylocks are left out: their [_debug] macros name their wrappers. *)
Definition debug_variant (sel : selection) (here : callsite) (o : op) : option (M unit) :=
  match sel, o with
  | USE_PTHREAD_MUTEX, mutex_lock a => Some (Pthread.janus_mutex_lock_debug here a)
  | USE_PTHREAD_MUTEX, mutex_trylock a => Some (Pthread.janus_mutex_trylock_debug here a)
  | USE_PTHREAD_MUTEX, mutex_unlock a => Some (Pthread.janus_mutex_unlock_debug here a)
  | GLIB_DEFAULT, mutex_lock a => Some (GLib.janus_mutex_lock_debug here a)
  | GLIB_DEFAULT, mutex_trylock a => Some (GLib.janus_mutex_trylock_debug here a)
  | GLIB_DEFAULT, mutex_unlock a => Some (GLib.janus_mutex_unlock_debug here a)
  | GLIB_DEFAULT, rwlock_init a => Some (GLib.janus_rwlock_init_debug here a)
  | GLIB_DEFAULT, rwlock_destroy a => Some (GLib.janus_rwlock_destroy_debug here a)
  | GLIB_DEFAULT, rwlock_reader_lock a => Some (GLib.janus_rwlock_reader_lock_debug here a)
  | GLIB_DEFAULT, rwlock_reader_unlock a => Some (GLib.janus_rwlock_reader_unlock_debug here a)
  | GLIB_DEFAULT, rwlock_writer_lock a => Some (GLib.janus_rwlock_writer_lock_debug here a)
  | GLIB_DEFAULT, rwlock_writer_unlock a => Some (GLib.janus_rwlock_writer_unlock_debug here a)
  | _, _ => None
  end.
End RunVocabulary.

(** A place of invocation where the caller has its own [int ret = 5] in
    scope, on the reference collaborators. *)
Definition caller_with_ret (flag : Z) : @world Model.backend :=
  @mkWorld Model.backend flag [[("ret", c_int, Some 5)]] [] Model.idle.

(** ** Proof tools *)

Create HintDb facade.

#[local] Hint Unfold
  Pthread.janus_mutex_init Pthread.janus_mutex_destroy
  Pthread.janus_mutex_lock_nodebug Pthread.janus_mutex_lock_debug Pthread.janus_mutex_lock
  Pthread.janus_mutex_trylock_nodebug Pthread.janus_mutex_trylock_debug
  Pthread.janus_mutex_trylock
  Pthread.janus_mutex_unlock_nodebug Pthread.janus_mutex_unlock_debug
  Pthread.janus_mutex_unlock
  Pthread.janus_condition_init Pthread.janus_condition_destroy
  Pthread.janus_condition_wait Pthread.janus_condition_wait_until
  Pthread.janus_condition_signal Pthread.janus_condition_broadcast
  GLib.janus_mutex_init GLib.janus_mutex_destroy
  GLib.janus_mutex_lock_nodebug GLib.janus_mutex_lock_debug GLib.janus_mutex_lock
  GLib.janus_mutex_trylock_nodebug GLib.janus_mutex_trylock_debug GLib.janus_mutex_trylock
  GLib.janus_mutex_unlock_nodebug GLib.janus_mutex_unlock_debug GLib.janus_mutex_unlock
  GLib.janus_condition_init GLib.janus_condition_destroy
  GLib.janus_condition_wait GLib.janus_condition_wait_until
  GLib.janus_condition_signal GLib.janus_condition_broadcast
  GLib.janus_rwlock_init_nodebug GLib.janus_rwlock_init_debug GLib.janus_rwlock_init
  GLib.janus_rwlock_destroy_nodebug GLib.janus_rwlock_destroy_debug GLib.janus_rwlock_destroy
  GLib.janus_rwlock_reader_lock_nodebug GLib.janus_rwlock_reader_lock_debug
  GLib.janus_rwlock_reader_lock
  GLib.janus_rwlock_reader_trylock_nodebug GLib.janus_rwlock_reader_trylock_debug
  GLib.janus_rwlock_reader_trylock
  GLib.janus_rwlock_reader_unlock_nodebug GLib.janus_rwlock_reader_unlock_debug
  GLib.janus_rwlock_reader_unlock
  GLib.janus_rwlock_writer_lock_nodebug GLib.janus_rwlock_writer_lock_debug
  GLib.janus_rwlock_writer_lock
  GLib.janus_rwlock_writer_trylock_nodebug GLib.janus_rwlock_writer_trylock_debug
  GLib.janus_rwlock_writer_trylock
  GLib.janus_rwlock_writer_unlock_nodebug GLib.janus_rwlock_writer_unlock_debug
  GLib.janus_rwlock_writer_unlock
  : facade.

#[local] Hint Unfold
  invoke expand as_expr as_stmt as_void step
  block bind ret expr_stmt call call_unexpanded read_lock_debug JANUS_PRINT
  declare assign rvalue if_ lnot record set_lock_debug added world_of
  : facade.

(** Unfold the macros down to the combinators' definitions and compute. *)
Ltac expand_macros := autounfold with facade in *; cbn in *.

(** Split on whatever the computation is waiting for: the flag, the
    backend's reply, an enclosing [ret]. *)
Ltac split_on_world :=
  repeat match goal with
    | |- context [Z.eqb (lock_debug ?w) 0] =>
        destruct (Z.eqb_spec (lock_debug w) 0); cbn in *
    | |- context [run_prim ?f ?args ?s] =>
        let R := fresh "R" in destruct (run_prim f args s) eqn:R; cbn in *
    | |- context [frames_set ?x ?v (frames ?w)] =>
        let F := fresh "F" in destruct (frames_set x v (frames w)) eqn:F; cbn in *
    | |- context [frames_get ?x ?frs] =>
        let G := fresh "G" in destruct (frames_get x frs) as [[?|]|] eqn:G; cbn in *
    end.

Ltac run_facade := expand_macros; split_on_world.

Section Properties.
Context {backend : PrimitiveBackend} {sink : TraceSink}.

(** *** Bookkeeping on logs *)

Lemma added_trans (w1 w2 w3 : world) (xs ys : list event) :
  added w1 w2 xs -> added w2 w3 ys -> added w1 w3 (xs ++ ys).
Proof.
  unfold added. intros H1 H2. rewrite H2, H1, rev_app_distr, app_assoc. reflexivity.
Qed.

Lemma printed_rev (evs : list event) : printed (rev evs) = rev (printed evs).
Proof.
  unfold printed. induction evs as [|e evs IH]; [reflexivity|].
  cbn [rev flat_map]. rewrite flat_map_app, rev_app_distr, IH.
  destruct e; cbn; rewrite ?app_nil_r; reflexivity.
Qed.

Lemma lines_added (w w' : world) (evs : list event) :
  added w w' evs -> lines (log w') = (lines (log w) ++ printed evs)%list.
Proof.
  unfold added, lines. intros ->.
  unfold printed at 1. rewrite flat_map_app. fold (printed (rev evs)) (printed (log w)).
  rewrite rev_app_distr, printed_rev, rev_involutive. reflexivity.
Qed.

(** *** Facts about every invocation *)

(** [defines] is the table of what [expand] finds a macro for. *)
Lemma defines_expand (sel : selection) (here : callsite) (o : op) :
  defines sel o = true <-> expand sel here o <> None.
Proof. destruct sel, o; cbn; split; (discriminate || reflexivity || congruence). Qed.

(** No operation writes the flag. *)
Lemma invoke_keeps_flag (sel : selection) (here : callsite) (o : op) (w : world) :
  lock_debug (world_of (invoke sel here o w)) = lock_debug w.
Proof. destruct sel, o; run_facade; reflexivity. Qed.

(** An operation only ever appends to the log: first the evaluation of
    the flag if its replacement list tests it, then events among which
    there is no further evaluation. *)
Lemma invoke_appends (sel : selection) (here : callsite) (o : op) (w : world) :
  exists rest,
    added w (world_of (invoke sel here o w))
          ((if reads_flag sel o then [EvFlag] else []) ++ rest) /\
    flag_reads rest = 0%nat.
Proof.
  destruct sel, o; cbn [reads_flag is_rwlock_op defines negb andb app];
    run_facade;
    first [ exists []; split; reflexivity
          | eexists [_]; split; reflexivity
          | eexists [_; _]; split; reflexivity ].
Qed.

(** What an invocation hands to the trace sink: one line, in the header's
    format for the operation, when the operation tests the flag and finds
    it set; nothing otherwise. *)
Lemma invoke_traces (sel : selection) (here : callsite) (o : op) (w : world) :
  exists evs,
    added w (world_of (invoke sel here o w)) evs /\
    printed evs =
      if reads_flag sel o && negb (lock_debug w =? 0)
      then [trace_line here (header_tag o) (handle o)]
      else [].
Proof.
  destruct sel, o; cbn [reads_flag is_rwlock_op defines negb andb header_tag handle];
    run_facade;
    try match goal with
        | e : lock_debug _ = 0 |- _ => rewrite e; cbn
        | n : lock_debug ?w <> 0 |- _ =>
            destruct (Z.eqb_spec (lock_debug w) 0); [contradiction|]; cbn
        end;
    first [ exists []; split; reflexivity
          | eexists [_]; split; reflexivity
          | eexists [_; _]; split; reflexivity
          | eexists [_; _; _]; split; reflexivity ].
Qed.

(** *** Runs *)

Lemma run_cons (sel : selection) (x : action) (xs : list action) (w : world) :
  run sel (x :: xs) w =
    match step sel x w with
    | Done _ w' => run sel xs w'
    | Blocked w' => Blocked w'
    | Fault f w' => Fault f w'
    end.
Proof. reflexivity. Qed.

Lemma step_invoke_world (sel : selection) (here : callsite) (o : op) (w : world) :
  world_of (step sel (Invoke here o) w) = world_of (invoke sel here o w).
Proof. cbn [step]. unfold bind, ret. destruct (invoke sel here o w); reflexivity. Qed.

Lemma step_appends (sel : selection) (x : action) (w : world) :
  exists evs, added w (world_of (step sel x w)) evs.
Proof.
  destruct x as [v|here o].
  - exists []. reflexivity.
  - rewrite step_invoke_world.
    destruct (invoke_appends sel here o w) as (rest & H & _). eauto.
Qed.

Lemma run_appends (sel : selection) (xs : list action) :
  forall w, exists evs, added w (world_of (run sel xs w)) evs.
Proof.
  induction xs as [|x xs IH]; intros w.
  - exists []. reflexivity.
  - rewrite run_cons. destruct (step_appends sel x w) as (e1 & H1).
    destruct (step sel x w) as [u w'|w'|f w']; cbn [world_of] in *; eauto.
    destruct (IH w') as (e2 & H2). exists (e1 ++ e2)%list.
    eapply added_trans; eassumption.
Qed.

Lemma run_app (sel : selection) (xs ys : list action) :
  forall w,
    run sel (xs ++ ys) w =
      match run sel xs w with
      | Done _ w' => run sel ys w'
      | Blocked w' => Blocked w'
      | Fault f w' => Fault f w'
      end.
Proof.
  induction xs as [|x xs IH]; intros w; [reflexivity|].
  cbn [app]. rewrite !run_cons.
  destruct (step sel x w); [apply IH|reflexivity|reflexivity].
Qed.

(** What a run has logged is still there, unchanged, however the run goes
    on. *)
Lemma run_prefix_stays (sel : selection) (xs ys : list action) (w : world) :
  exists evs, added (world_of (run sel xs w)) (world_of (run sel (xs ++ ys) w)) evs.
Proof.
  rewrite run_app. destruct (run sel xs w) as [u w'|w'|f w']; cbn [world_of].
  - apply run_appends.
  - exists []. reflexivity.
  - exists []. reflexivity.
Qed.

Lemma run_unset_is_silent (sel : selection) (xs : list (callsite * op)) :
  forall w,
    lock_debug w = 0 ->
    lines (log (world_of (run sel (invocations xs) w))) = lines (log w).
Proof.
  induction xs as [|[here o] xs IH]; intros w Hw; [reflexivity|].
  cbn [invocations map fst snd]. fold (invocations xs). rewrite run_cons.
  pose proof (step_invoke_world sel here o w) as Hs.
  destruct (invoke_traces sel here o w) as (evs & Ha & Hp).
  rewrite Hw, andb_false_r in Hp.
  pose proof (invoke_keeps_flag sel here o w) as Hk.
  rewrite <- Hs in Ha, Hk.
  apply lines_added in Ha. rewrite Hp, app_nil_r in Ha.
  destruct (step sel (Invoke here o) w) as [u w'|w'|f w']; cbn [world_of] in *;
    try exact Ha.
  rewrite IH by congruence. exact Ha.
Qed.

(** *** The deadline conversion *)

Lemma wrap64_small (z : Z) : - 2 ^ 63 <= z < 2 ^ 63 -> wrap64 z = z.
Proof. intros H. unfold wrap64. rewrite Z.mod_small; lia. Qed.

Lemma deadline_seconds (c : Z) :
  0 <= c <= 9223372036854775807 -> c_div c G_USEC_PER_SEC = c / 1000000.
Proof.
  intros H. unfold c_div, G_USEC_PER_SEC.
  rewrite Z.quot_div_nonneg by lia.
  apply wrap64_small.
  assert (0 <= c / 1000000 <= c) by (split; [apply Z.div_pos; lia | apply Z.div_le_upper_bound; lia]).
  lia.
Qed.


Lemma deadline_remainder (c : Z) :
  0 <= c <= 9223372036854775807 -> c_rem c G_USEC_PER_SEC = c mod 1000000.
Proof.
  intros H. unfold c_rem, G_USEC_PER_SEC.
  rewrite Z.rem_mod_nonneg by lia.
  pose proof (Z.mod_pos_bound c 1000000 ltac:(lia)) as Hm.
  apply wrap64_small. lia.
Qed.




(** *** Strings and scopes *)

Lemma append_inv_head (s x y : string) : s ++ x = s ++ y -> x = y.
Proof.
  induction s as [|ch s IH]; cbn; intros H; [exact H|].
  injection H as H. auto.
Qed.

Lemma trace_line_tag (here : callsite) (t1 t2 : string) (a : Z) :
  trace_line here t1 a = trace_line here t2 a ->
  t1 ++ "] " ++ show_pointer a ++ String "010"%char "" =
  t2 ++ "] " ++ show_pointer a ++ String "010"%char "".
Proof.
  unfold trace_line. intros H.
  repeat apply append_inv_head in H. exact H.
Qed.

Lemma frame_set_none (x : string) (v : Z) (fr : frame) :
  frame_get x fr = None -> frame_set x v fr = None.
Proof.
  induction fr as [|[[y ty] old] fr IH]; cbn; [reflexivity|].
  destruct (String.eqb x y); [discriminate|].
  intros H. rewrite (IH H). reflexivity.
Qed.

Lemma frames_set_none (x : string) (v : Z) (frs : list frame) :
  frames_get x frs = None -> frames_set x v frs = None.
Proof.
  induction frs as [|fr frs IH]; cbn; [reflexivity|].
  destruct (frame_get x fr) eqn:E; [discriminate|].
  intros H. rewrite (frame_set_none _ _ _ E), (IH H). reflexivity.
Qed.

(** *** The properties of the facade *)

(** C6.  With [lock_debug] at zero an invocation hands nothing to the
    trace sink: all it does is evaluate the flag, where its replacement
    list tests it, and make one call into the backend.  The same holds
    along every sequence of invocations. *)
Theorem silent_when_unset (sel : selection) (here : callsite) (o : op)
    (xs : list (callsite * op)) (w : world) :
  lock_debug w = 0 ->
  (exists evs,
      added w (world_of (invoke sel here o w)) evs /\
      printed evs = [] /\
      (evs = [] \/
       exists f args, evs = [EvCall f args] \/ evs = [EvFlag; EvCall f args])) /\
  lines (log (world_of (invoke sel here o w))) = lines (log w) /\
  lines (log (world_of (run sel (invocations xs) w))) = lines (log w).
Proof.
  intros Hw. split; [|split].
  - destruct sel, o; run_facade; try contradiction;
      first [ exists []; repeat split; auto; fail
            | eexists [_]; repeat split; eauto; fail
            | eexists [_; _]; repeat split; eauto ].
  - destruct (invoke_traces sel here o w) as (evs & Ha & Hp).
    rewrite Hw, andb_false_r in Hp.
    rewrite (lines_added _ _ _ Ha), Hp. apply app_nil_r.
  - apply run_unset_is_silent. exact Hw.
Qed.

(** C7.  Under either selection and whatever the value of [lock_debug],
    an operation on a condition variable makes one call into the backend
    and nothing else: it evaluates no flag and hands no line to the trace
    sink. *)
Theorem condition_ops_are_silent (sel : selection) (here : callsite) (o : op) (w : world) :
  is_condition_op o = true ->
  (exists f args, added w (world_of (invoke sel here o w)) [EvCall f args]) /\
  lines (log (world_of (invoke sel here o w))) = lines (log w).
Proof.
  intros Hc.
  assert (H : exists f args, added w (world_of (invoke sel here o w)) [EvCall f args]).
  { destruct sel, o; try discriminate Hc; run_facade; eauto. }
  split; [exact H|].
  destruct H as (f & args & H). rewrite (lines_added _ _ _ H). cbn.
  apply app_nil_r.
Qed.

(** C8, amended.  An operation whose replacement list tests [lock_debug]
    evaluates it once, before anything else; the operations that do not
    test it (init and destroy of a mutex, everything on a condition
    variable) never evaluate it.  No operation writes the flag.  What an
    invocation hands to the trace sink depends on nothing but the flag's
    value at that moment: two worlds that agree on the flag and differ in
    everything else get the same lines.  Whatever a run has logged stays
    as it is when the run goes on, toggles included. *)
Theorem flag_is_read_at_invocation (sel : selection) (here : callsite) (o : op)
    (w1 w2 : world) (xs ys : list action) :
  lock_debug w1 = lock_debug w2 ->
  (exists rest,
      added w1 (world_of (invoke sel here o w1))
            ((if reads_flag sel o then [EvFlag] else []) ++ rest) /\
      flag_reads rest = 0%nat) /\
  lock_debug (world_of (invoke sel here o w1)) = lock_debug w1 /\
  (exists evs1 evs2,
      added w1 (world_of (invoke sel here o w1)) evs1 /\
      added w2 (world_of (invoke sel here o w2)) evs2 /\
      printed evs1 = printed evs2) /\
  (exists evs, added (world_of (run sel xs w1)) (world_of (run sel (xs ++ ys) w1)) evs).
Proof.
  intros Hflag. repeat split.
  - apply invoke_appends.
  - apply invoke_keeps_flag.
  - destruct (invoke_traces sel here o w1) as (e1 & Ha1 & Hp1).
    destruct (invoke_traces sel here o w2) as (e2 & Ha2 & Hp2).
    exists e1, e2. repeat split; try assumption.
    rewrite Hp1, Hp2, Hflag. reflexivity.
  - apply run_prefix_stays.
Qed.

(** C10.  Under [USE_PTHREAD_MUTEX], [janus_mutex_trylock] yields 1 when
    [pthread_mutex_trylock] returns 0 and yields 0 for every other return
    code, whichever it is, with the flag set or clear; the backend is left
    as that one call leaves it. *)
Theorem pthread_trylock_collapses_codes (here : callsite) (a : Z) (w : world)
    (r : Z) (s : bstate) :
  run_prim pthread_mutex_trylock [VPtr a] (locks w) = Returns r s ->
  exists w',
    Pthread.janus_mutex_trylock here a w = Done (if r =? 0 then 1 else 0) w' /\
    calls (log w') = (calls (log w) ++ [(pthread_mutex_trylock, [VPtr a])])%list /\
    locks w' = s /\
    (r = 0 -> Pthread.janus_mutex_trylock here a w = Done 1 w') /\
    (r <> 0 -> Pthread.janus_mutex_trylock here a w = Done 0 w').
Proof.
  intros R. expand_macros. unfold calls.
  destruct (Z.eqb_spec (lock_debug w) 0); cbn; rewrite R; cbn;
    (eexists; split; [reflexivity|]; cbn; repeat split; trivial;
     destruct (Z.eqb_spec r 0); intros; trivial; contradiction).
Qed.

(** C5, at a deadline written as a sum.  Lines 60 and 61 write the
    argument out next to [/] and [%] without parentheses, so of [x + y]
    only [y] is divided and reduced: [pthread_cond_timedwait] gets
    [tv_sec = x + y / 1000000] and [tv_nsec = (x + y mod 1000000) * 1000].
    For [x] above zero that is never the pair the deadline [x + y] stands
    for.  Under the GLib default the same argument reaches
    [g_cond_wait_until] as [x + y]. *)
Theorem wait_until_splits_a_sum (a b x y : Z) (w : world) :
  0 < x <= 1000000000000000 ->
  0 <= y <= 1000000000000000 ->
  eval (Plus (Atom x) (Atom y)) = x + y /\
  added w (world_of (Pthread.janus_condition_wait_until a b (Plus (Atom x) (Atom y)) w))
        [EvCall pthread_cond_timedwait
                [VPtr a; VPtr b;
                 VTimespec (x + (y / 1000000)) ((x + (y mod 1000000)) * 1000)]] /\
  (x + (y / 1000000), (x + (y mod 1000000)) * 1000) <>
    ((x + y) / 1000000, ((x + y) mod 1000000) * 1000) /\
  added w (world_of (GLib.janus_condition_wait_until a b (Plus (Atom x) (Atom y)) w))
        [EvCall g_cond_wait_until [VPtr a; VPtr b; VInt (x + y)]].
Proof.
  intros Hx Hy.
  pose proof (Z.mod_pos_bound y 1000000 ltac:(lia)) as Hm.
  pose proof (Z.div_mod y 1000000 ltac:(lia)) as Hd.
  pose proof (Z.mod_pos_bound (x + y) 1000000 ltac:(lia)) as Hm'.
  pose proof (Z.div_mod (x + y) 1000000 ltac:(lia)) as Hd'.
  assert (Hq : 0 <= y / 1000000 <= y)
    by (split; [apply Z.div_pos; lia | apply Z.div_le_upper_bound; lia]).
  assert (He : eval (Plus (Atom x) (Atom y)) = x + y)
    by (cbn [eval]; apply wrap64_small; lia).
  assert (Hs : eval (paste Over (Plus (Atom x) (Atom y)) (Atom G_USEC_PER_SEC)) =
               x + (y / 1000000)).
  { cbn [paste eval]. rewrite deadline_seconds by lia. apply wrap64_small. lia. }
  assert (Hn : eval (Times (Paren (paste Modulo (Plus (Atom x) (Atom y))
                                         (Atom G_USEC_PER_SEC))) (Atom 1000)) =
               (x + (y mod 1000000)) * 1000).
  { cbn [paste eval]. rewrite deadline_remainder by lia.
    rewrite (wrap64_small (x + y mod 1000000)) by lia.
    unfold c_mul. apply wrap64_small. lia. }
  split; [exact He|]. split; [|split].
  - unfold Pthread.janus_condition_wait_until. cbn [tv_sec tv_nsec].
    rewrite Hs, Hn. run_facade; reflexivity.
  - intros E. injection E as E1 E2. lia.
  - unfold GLib.janus_condition_wait_until. rewrite He. run_facade; reflexivity.
Qed.

(** C1, amended.  Leaving [janus_rwlock_reader_trylock] and
    [janus_rwlock_writer_trylock] aside: an operation the selection
    defines makes, with the flag set or clear, exactly one call into the
    backend, to the primitive that corresponds to it, with the handle it
    was given as first argument.  It blocks exactly when that call blocks.
    When the call returns, the backend is in the state the call left, the
    flag and the caller's variables are as before, and the caller sees of
    the primitive's result what [visible] says.  The GLib
    [janus_mutex_trylock] shows it as it is, the pthread one shows its
    logical negation.  An operation that expands to an expression, or to a
    call followed by [;] (init, destroy, and on a condition variable wait,
    signal, broadcast and the GLib wait_until), shows it as it is when the
    primitive returns one, and nothing when the primitive is [void].  An
    operation that expands to a block (lock, unlock, the pthread
    wait_until, the rwlock statements) shows nothing. *)
Theorem facade_delegates (sel : selection) (here : callsite) (o : op)
    (f : prim) (args : list value) (w : world) :
  delegate sel o = Some (f, args) ->
  is_rwlock_trylock o = false ->
  hd_error args = Some (VPtr (handle o)) /\
  exists pre,
    added w (world_of (invoke sel here o w)) (pre ++ [EvCall f args]) /\
    called pre = [] /\
    match run_prim f args (locks w) with
    | Returns r s =>
        invoke sel here o w =
          Done (visible sel o r)
               (mkWorld (lock_debug w) (frames w)
                        (log (world_of (invoke sel here o w))) s)
    | Blocks =>
        exists w', invoke sel here o w = Blocked w' /\ locks w' = locks w
    end.
Proof.
  intros Hd Ht.
  destruct sel, o; try discriminate Ht; try discriminate Hd;
    cbn [delegate] in Hd; injection Hd as <- <-;
    (split; [reflexivity|]);
    run_facade;
    first [ exists []; repeat split; eauto; fail
          | exists [EvFlag]; repeat split; eauto; fail
          | eexists [EvFlag; EvPrint _]; repeat split; eauto ].
Qed.

(** C2, at the two trace points where the header departs from it.  With
    the flag set, [janus_rwlock_destroy] and [janus_rwlock_writer_lock]
    each hand one line of the promised shape to the trace sink, but the
    operation in it reads [rw_dectroy] and [writer_unlock]; neither is the
    line the trace contract gives these operations. *)
Theorem rwlock_tags_off_contract (here : callsite) (a : Z) (w : world) :
  lock_debug w <> 0 ->
  lines (log (world_of (invoke GLIB_DEFAULT here (rwlock_destroy a) w))) =
    (lines (log w) ++ [trace_line here "rw_dectroy" a])%list /\
  lines (log (world_of (invoke GLIB_DEFAULT here (rwlock_writer_lock a) w))) =
    (lines (log w) ++ [trace_line here "writer_unlock" a])%list /\
  trace_line here "rw_dectroy" a <> trace_line here (contract_tag (rwlock_destroy a)) a /\
  trace_line here "writer_unlock" a <>
    trace_line here (contract_tag (rwlock_writer_lock a)) a.
Proof.
  intros Hw.
  assert (Hon : reads_flag GLIB_DEFAULT (rwlock_destroy a) && negb (lock_debug w =? 0) = true)
    by (destruct (Z.eqb_spec (lock_debug w) 0); [contradiction|reflexivity]).
  split; [|split; [|split]].
  - destruct (invoke_traces GLIB_DEFAULT here (rwlock_destroy a) w) as (evs & Ha & Hp).
    rewrite (lines_added _ _ _ Ha), Hp, Hon. reflexivity.
  - destruct (invoke_traces GLIB_DEFAULT here (rwlock_writer_lock a) w) as (evs & Ha & Hp).
    rewrite (lines_added _ _ _ Ha), Hp.
    cbn [reads_flag is_rwlock_op defines andb] in *. rewrite Hon. reflexivity.
  - intros H. apply trace_line_tag in H. cbn in H. discriminate H.
  - intros H. apply trace_line_tag in H. cbn in H. discriminate H.
Qed.

(** The trace points that do follow the contract: every other operation
    that tests the flag hands over, when the flag is set, exactly the
    line the contract describes. *)
Lemma trace_points_on_contract (sel : selection) (here : callsite) (o : op) (w : world) :
  lock_debug w <> 0 ->
  reads_flag sel o = true ->
  header_tag o = contract_tag o ->
  lines (log (world_of (invoke sel here o w))) =
    (lines (log w) ++ [trace_line here (contract_tag o) (handle o)])%list.
Proof.
  intros Hw Hr Ht.
  destruct (invoke_traces sel here o w) as (evs & Ha & Hp).
  rewrite (lines_added _ _ _ Ha), Hp, Hr, Ht.
  destruct (Z.eqb_spec (lock_debug w) 0); [contradiction|reflexivity].
Qed.

(** C3, amended.  An operation outside the rwlock family is defined under
    both selections, and under both it does the same up to the family of
    the primitive: the same evaluation of the flag, the same line to the
    trace sink, then one call, to [pthread_...] under [USE_PTHREAD_MUTEX]
    and to its GLib twin otherwise, on the same handle.  An operation of
    the rwlock family is defined under the GLib default only. *)
Theorem selections_agree_outside_rwlock (here : callsite) (o o' : op) (wp wg : world) :
  is_rwlock_op o = false ->
  lock_debug wp = lock_debug wg ->
  (expand USE_PTHREAD_MUTEX here o <> None /\ expand GLIB_DEFAULT here o <> None) /\
  (exists pre fp argsp fg argsg,
      added wp (world_of (invoke USE_PTHREAD_MUTEX here o wp)) (pre ++ [EvCall fp argsp]) /\
      added wg (world_of (invoke GLIB_DEFAULT here o wg)) (pre ++ [EvCall fg argsg]) /\
      called pre = [] /\
      twin fp = Some fg /\
      hd_error argsp = Some (VPtr (handle o)) /\
      hd_error argsg = Some (VPtr (handle o))) /\
  (if is_rwlock_op o'
   then expand USE_PTHREAD_MUTEX here o' = None /\ expand GLIB_DEFAULT here o' <> None
   else expand USE_PTHREAD_MUTEX here o' <> None /\ expand GLIB_DEFAULT here o' <> None).
Proof.
  intros Ho Hflag. split; [|split].
  - destruct o; try discriminate Ho; split; discriminate.
  - destruct o; try discriminate Ho; expand_macros; rewrite <- ?Hflag;
      split_on_world;
      first [ exists []; do 4 eexists; repeat split; reflexivity
            | exists [EvFlag]; do 4 eexists; repeat split; reflexivity
            | eexists [EvFlag; EvPrint _]; do 4 eexists; repeat split; reflexivity ].
  - destruct o'; cbn; split; (reflexivity || discriminate).
Qed.

(** C4, at [janus_rwlock_reader_trylock] and [janus_rwlock_writer_trylock].
    Invoked where no variable [ret] is in scope, the reader variant never
    evaluates to a value, with the flag set or clear: its statement
    expression declares no [ret].  With the flag set it stops at its own
    name, which the preprocessor leaves in place, before any call into the
    backend; so does the writer variant.  The only call the writer variant
    ever makes into the backend is [g_rw_lock_reader_trylock]. *)
Theorem rwlock_trylock_has_no_result (here : callsite) (a : Z) (w : world) :
  frames_get "ret" (frames w) = None ->
  (forall v w', invoke GLIB_DEFAULT here (rwlock_reader_trylock a) w <> Done v w') /\
  (lock_debug w = 0 \/
   exists w',
     invoke GLIB_DEFAULT here (rwlock_reader_trylock a) w =
       Fault (Undeclared "janus_rwlock_reader_trylock") w' /\
     calls (log w') = calls (log w)) /\
  (lock_debug w = 0 \/
   exists w',
     invoke GLIB_DEFAULT here (rwlock_writer_trylock a) w =
       Fault (Undeclared "janus_rwlock_writer_trylock") w' /\
     calls (log w') = calls (log w)) /\
  (exists evs,
      added w (world_of (invoke GLIB_DEFAULT here (rwlock_writer_trylock a) w)) evs /\
      (called evs = [] \/ called evs = [(g_rw_lock_reader_trylock, [VPtr a])])).
Proof.
  intros Hret. split; [|split; [|split]].
  - intros v w'. expand_macros.
    destruct (Z.eqb_spec (lock_debug w) 0); cbn; [|discriminate].
    destruct (run_prim g_rw_lock_reader_trylock [VPtr a] (locks w)); cbn; [|discriminate].
    rewrite (frames_set_none _ _ _ Hret). cbn. discriminate.
  - destruct (Z.eq_dec (lock_debug w) 0) as [e|n]; [left; exact e|right].
    run_facade; try contradiction; eexists; split; reflexivity.
  - destruct (Z.eq_dec (lock_debug w) 0) as [e|n]; [left; exact e|right].
    run_facade; try contradiction; eexists; split; reflexivity.
  - run_facade;
      first [ eexists [_; _]; split; [reflexivity|]; cbn; auto; fail
            | eexists [_; _; _]; split; [reflexivity|]; cbn; auto; fail
            | eexists [_]; split; [reflexivity|]; cbn; auto ].
Qed.
End Properties.

(** ** The facade on the reference collaborators *)

(** C9, on the run it describes.  Two readers take the rwlock [7] through
    [janus_rwlock_reader_lock]; the backend's writer trylock would now
    report [FALSE].  With the flag clear, [janus_rwlock_writer_trylock]
    nevertheless evaluates to [TRUE]: the call it makes is
    [g_rw_lock_reader_trylock], and what it acquired is a third reader
    lock.  With the flag set it reaches no primitive at all. *)
Theorem writer_trylock_among_readers :
  let two_readers :=
    [Invoke Model.at_main (rwlock_reader_lock 7);
     Invoke Model.at_main (rwlock_reader_lock 7)] in
  let w2 := world_of (Model.program GLIB_DEFAULT two_readers (Model.start 0)) in
  let w2' := world_of (Model.program GLIB_DEFAULT two_readers (Model.start 1)) in
  let w3 := world_of (Model.facade GLIB_DEFAULT Model.at_main (rwlock_writer_trylock 7) w2) in
  let w3' := world_of (Model.facade GLIB_DEFAULT Model.at_main (rwlock_writer_trylock 7) w2') in
  Model.program GLIB_DEFAULT two_readers (Model.start 0) = Done tt w2 /\
  Model.readers (locks w2) = [7; 7] /\
  Model.exec g_rw_lock_writer_trylock [VPtr 7] (locks w2) = Returns 0 (locks w2) /\
  Model.facade GLIB_DEFAULT Model.at_main (rwlock_writer_trylock 7) w2 = Done (Some 1) w3 /\
  calls (log w3) =
    [(g_rw_lock_reader_lock, [VPtr 7]); (g_rw_lock_reader_lock, [VPtr 7]);
     (g_rw_lock_reader_trylock, [VPtr 7])] /\
  Model.readers (locks w3) = [7; 7; 7] /\
  Model.program GLIB_DEFAULT two_readers (Model.start 1) = Done tt w2' /\
  Model.readers (locks w2') = [7; 7] /\
  Model.facade GLIB_DEFAULT Model.at_main (rwlock_writer_trylock 7) w2' =
    Fault (Undeclared "janus_rwlock_writer_trylock") w3' /\
  calls (log w3') =
    [(g_rw_lock_reader_lock, [VPtr 7]); (g_rw_lock_reader_lock, [VPtr 7])].
Proof.
  vm_compute. repeat (split; [reflexivity|]). reflexivity.
Qed.

(** *** Where the header departs from those readings *)

(** C1 as stated fails under [USE_PTHREAD_MUTEX]: on a free mutex
    [pthread_mutex_trylock] returns 0 and [janus_mutex_trylock] yields 1. *)
Lemma pthread_trylock_result_is_negated :
  ~ @yields_backend_result_unchanged Model.backend Model.sink.
Proof.
  intros H.
  specialize (H USE_PTHREAD_MUTEX Model.at_main (mutex_trylock 7) (Model.start 0)
                (world_of (Model.facade USE_PTHREAD_MUTEX Model.at_main (mutex_trylock 7)
                                    (Model.start 0)))
                pthread_mutex_trylock [VPtr 7] 0 1
                {| Model.held := [7]; Model.readers := []; Model.writers := [] |}
                eq_refl eq_refl eq_refl).
  discriminate H.
Qed.

(** C3 as stated fails at the rwlock family: [janus_rwlock_init] is defined
    under the GLib default and not under [USE_PTHREAD_MUTEX]. *)
Lemma rwlock_family_missing_under_pthread :
  ~ @selections_define_the_same_operations Model.backend Model.sink.
Proof.
  intros H.
  destruct (H Model.at_main (rwlock_init 7)) as [H1 _].
  apply H1; [discriminate|reflexivity].
Qed.

(** C8 as stated fails at the operations without a trace point:
    [janus_condition_signal] never evaluates the flag. *)
Lemma condition_signal_reads_no_flag :
  ~ @every_operation_reads_the_flag_once Model.backend Model.sink.
Proof.
  intros H.
  specialize (H USE_PTHREAD_MUTEX Model.at_main (condition_signal 7) (Model.start 1) eq_refl).
  discriminate H.
Qed.

(** *** The theorems at work on concrete runs *)

Lemma facade_delegates_witness :
  delegate USE_PTHREAD_MUTEX (mutex_lock 9) = Some (pthread_mutex_lock, [VPtr 9]) /\
  is_rwlock_trylock (mutex_lock 9) = false /\
  exists pre,
    added (Model.busy 1)
          (world_of (Model.facade USE_PTHREAD_MUTEX Model.at_main (mutex_lock 9) (Model.busy 1)))
          (pre ++ [EvCall pthread_mutex_lock [VPtr 9]]) /\
    called pre = [].
Proof.
  split; [reflexivity|]. split; [reflexivity|].
  destruct (facade_delegates (backend := Model.backend) (sink := Model.sink)
              USE_PTHREAD_MUTEX Model.at_main (mutex_lock 9) pthread_mutex_lock [VPtr 9]
              (Model.busy 1) eq_refl eq_refl) as (_ & pre & Ha & Hc & _).
  exists pre. split; assumption.
Defined.

Lemma rwlock_tags_off_contract_witness :
  lock_debug (Model.start 1) <> 0 /\
  lines (log (world_of (Model.facade GLIB_DEFAULT Model.at_main (rwlock_destroy 255)
                                     (Model.start 1)))) =
    ["[janus.c:main:42:rw_dectroy] 0xff" ++ String "010"%char ""] /\
  lines (log (world_of (Model.facade GLIB_DEFAULT Model.at_main (rwlock_writer_lock 255)
                                     (Model.start 1)))) =
    ["[janus.c:main:42:writer_unlock] 0xff" ++ String "010"%char ""].
Proof.
  assert (H : lock_debug (Model.start 1) <> 0) by (simpl; lia).
  split; [exact H|].
  destruct (rwlock_tags_off_contract (backend := Model.backend) (sink := Model.sink)
              Model.at_main 255 (Model.start 1) H) as (H1 & H2 & _).
  split; [exact H1|exact H2].
Defined.

Lemma selections_agree_outside_rwlock_witness :
  is_rwlock_op (mutex_unlock 7) = false /\
  lock_debug (Model.busy 1) = lock_debug (Model.start 1) /\
  (expand (backend := Model.backend) (sink := Model.sink)
          USE_PTHREAD_MUTEX Model.at_main (rwlock_writer_lock 7) = None /\
   expand (backend := Model.backend) (sink := Model.sink)
          GLIB_DEFAULT Model.at_main (rwlock_writer_lock 7) <> None).
Proof.
  split; [reflexivity|]. split; [reflexivity|].
  exact (proj2 (proj2 (selections_agree_outside_rwlock
                         (backend := Model.backend) (sink := Model.sink)
                         Model.at_main (mutex_unlock 7) (rwlock_writer_lock 7)
                         (Model.busy 1) (Model.start 1) eq_refl eq_refl))).
Defined.

Lemma rwlock_trylock_has_no_result_witness :
  frames_get "ret" (frames (Model.start 1)) = None /\
  (lock_debug (Model.start 1) = 0 \/
   exists w',
     Model.facade GLIB_DEFAULT Model.at_main (rwlock_reader_trylock 7) (Model.start 1) =
       Fault (Undeclared "janus_rwlock_reader_trylock") w' /\
     calls (log w') = calls (log (Model.start 1))).
Proof.
  split; [reflexivity|].
  exact (proj1 (proj2 (rwlock_trylock_has_no_result
                         (backend := Model.backend) (sink := Model.sink)
                         Model.at_main 7 (Model.start 1) eq_refl))).
Defined.

Lemma wait_until_splits_a_sum_witness :
  0 < 1000000 <= 1000000000000000 /\
  0 <= 500000 <= 1000000000000000 /\
  eval (Plus (Atom 1000000) (Atom 500000)) = 1500000 /\
  added (Model.start 0)
        (world_of (Pthread.janus_condition_wait_until (backend := Model.backend)
                     1 2 (Plus (Atom 1000000) (Atom 500000)) (Model.start 0)))
        [EvCall pthread_cond_timedwait [VPtr 1; VPtr 2; VTimespec 1000000 1500000000]] /\
  added (Model.start 0)
        (world_of (GLib.janus_condition_wait_until (backend := Model.backend)
                     1 2 (Plus (Atom 1000000) (Atom 500000)) (Model.start 0)))
        [EvCall g_cond_wait_until [VPtr 1; VPtr 2; VInt 1500000]].
Proof.
  assert (H1 : 0 < 1000000 <= 1000000000000000) by lia.
  assert (H2 : 0 <= 500000 <= 1000000000000000) by lia.
  split; [exact H1|]. split; [exact H2|].
  destruct (wait_until_splits_a_sum (backend := Model.backend)
              1 2 1000000 500000 (Model.start 0) H1 H2) as (He & Hp & _ & Hg).
  split; [exact He|]. split; [exact Hp|exact Hg].
Defined.

Lemma silent_when_unset_witness :
  lock_debug (Model.start 0) = 0 /\
  lines (log (world_of
    (Model.program GLIB_DEFAULT
       (invocations [(Model.at_main, mutex_lock 7);
                     (Model.at_main, rwlock_writer_trylock 8);
                     (Model.at_main, mutex_unlock 7)])
       (Model.start 0)))) = lines (log (Model.start 0)).
Proof.
  split; [reflexivity|].
  exact (proj2 (proj2 (silent_when_unset (backend := Model.backend) (sink := Model.sink)
                         GLIB_DEFAULT Model.at_main (mutex_lock 7)
                         [(Model.at_main, mutex_lock 7);
                          (Model.at_main, rwlock_writer_trylock 8);
                          (Model.at_main, mutex_unlock 7)]
                         (Model.start 0) eq_refl))).
Defined.

Lemma condition_ops_are_silent_witness :
  is_condition_op (condition_broadcast 5) = true /\
  lines (log (world_of (Model.facade USE_PTHREAD_MUTEX Model.at_main (condition_broadcast 5)
                                     (Model.busy 1)))) = lines (log (Model.busy 1)).
Proof.
  split; [reflexivity|].
  exact (proj2 (condition_ops_are_silent (backend := Model.backend) (sink := Model.sink)
                  USE_PTHREAD_MUTEX Model.at_main (condition_broadcast 5) (Model.busy 1)
                  eq_refl)).
Defined.

Lemma flag_is_read_at_invocation_witness :
  lock_debug (Model.start 1) = lock_debug (Model.busy 1) /\
  exists evs1 evs2,
    added (Model.start 1)
          (world_of (Model.facade GLIB_DEFAULT Model.at_main (mutex_lock 7) (Model.start 1)))
          evs1 /\
    added (Model.busy 1)
          (world_of (Model.facade GLIB_DEFAULT Model.at_main (mutex_lock 7) (Model.busy 1)))
          evs2 /\
    printed evs1 = printed evs2.
Proof.
  split; [reflexivity|].
  exact (proj1 (proj2 (proj2 (flag_is_read_at_invocation
                                (backend := Model.backend) (sink := Model.sink)
                                GLIB_DEFAULT Model.at_main (mutex_lock 7)
                                (Model.start 1) (Model.busy 1)
                                [Invoke Model.at_main (mutex_lock 7)] [Toggle 0]
                                eq_refl)))).
Defined.

Lemma pthread_trylock_collapses_codes_witness :
  run_prim (PrimitiveBackend := Model.backend) pthread_mutex_trylock [VPtr 7]
           (locks (Model.busy 1)) = Returns Model.EBUSY (locks (Model.busy 1)) /\
  exists w',
    Pthread.janus_mutex_trylock (backend := Model.backend) (sink := Model.sink)
      Model.at_main 7 (Model.busy 1) = Done 0 w'.
Proof.
  split; [reflexivity|].
  destruct (pthread_trylock_collapses_codes (backend := Model.backend) (sink := Model.sink)
              Model.at_main 7 (Model.busy 1) Model.EBUSY (locks (Model.busy 1)) eq_refl)
    as (w' & H & _).
  exists w'. exact H.
Defined.

(** ** Further properties of the header *)

Section Further.
Context {backend : PrimitiveBackend} {sink : TraceSink}.

(** *** Runs against the backend *)

Lemma defines_delegate (sel : selection) (o : op) :
  defines sel o = true -> exists f args, delegate sel o = Some (f, args).
Proof. destruct sel, o; cbn; intros H; try discriminate H; eauto. Qed.

(** One invocation outside the rwlock trylocks, seen from the backend. *)
Lemma invoke_plain (sel : selection) (here : callsite) (o : op)
    (f : prim) (args : list value) (w : world) :
  delegate sel o = Some (f, args) ->
  is_rwlock_trylock o = false ->
  match run_prim f args (locks w) with
  | Returns r s =>
      exists l,
        invoke sel here o w = Done (visible sel o r) (mkWorld (lock_debug w) (frames w) l s) /\
        called l = (f, args) :: called (log w)
  | Blocks => exists w', invoke sel here o w = Blocked w'
  end.
Proof.
  intros Hd Ht.
  destruct sel, o; try discriminate Ht; try discriminate Hd;
    cbn [delegate] in Hd; injection Hd as <- <-;
    run_facade; eexists; try split; reflexivity.
Qed.

Lemma calls_cons (l : list event) (c : prim * list value) (old : list event) :
  called l = c :: called old -> calls l = (calls old ++ [c])%list.
Proof. unfold calls. intros ->. reflexivity. Qed.

(** X1.  A run of invocations outside the rwlock trylocks, with writes to
    the flag anywhere in between, is to the backend the same as issuing the
    corresponding primitives directly, in program order: the run completes
    exactly when they all return, it leaves the backend in the state they
    leave, the backend saw exactly those calls, and the caller's variables
    are as before. *)
Theorem run_refines_direct (sel : selection) (xs : list action) :
  forall w : world,
    forallb (plain sel) xs = true ->
    match direct (delegates_of sel xs) (locks w) with
    | Some s =>
        exists w',
          run sel xs w = Done tt w' /\
          locks w' = s /\
          frames w' = frames w /\
          calls (log w') = (calls (log w) ++ delegates_of sel xs)%list
    | None => exists w', run sel xs w = Blocked w'
    end.
Proof.
  induction xs as [|x xs IH]; intros w Hp.
  - cbn. exists w. repeat split. symmetry. apply app_nil_r.
  - cbn [forallb] in Hp. apply andb_prop in Hp. destruct Hp as [Hx Hp].
    rewrite run_cons. destruct x as [v|here o].
    + cbn [step delegates_of flat_map app].
      specialize (IH (set_lock_debug v w) Hp). exact IH.
    + cbn [plain] in Hx. apply andb_prop in Hx. destruct Hx as [Hdef Htry].
      apply negb_true_iff in Htry.
      destruct (defines_delegate sel o Hdef) as (f & args & Hd).
      pose proof (invoke_plain sel here o f args w Hd Htry) as Hi.
      unfold delegates_of. cbn [flat_map]. rewrite Hd. cbn [app direct].
      fold (delegates_of sel xs).
      cbn [step]. unfold bind.
      destruct (run_prim f args (locks w)) as [r s|].
      * destruct Hi as (l & Hi & Hl). rewrite Hi. unfold ret. cbv beta iota.
        specialize (IH (mkWorld (lock_debug w) (frames w) l s) Hp). cbn [locks] in IH.
        destruct (direct (delegates_of sel xs) s) as [s'|].
        -- destruct IH as (w' & Hr & Hs & Hf & Hc). exists w'.
           repeat split; try assumption.
           rewrite Hc. cbn [log]. rewrite (calls_cons _ _ _ Hl), <- app_assoc. reflexivity.
        -- exact IH.
      * destruct Hi as (w' & Hi). rewrite Hi. cbv beta iota. eauto.
Qed.

(** X2.  The lines a run hands to the trace sink are, in order, those of
    its invocations that test the flag, each taken or not by the value the
    flag had when the invocation started; a run that stops early has handed
    over a prefix of them.  A run that completes leaves the flag at the
    value last written. *)
Theorem run_trace (sel : selection) (xs : list action) :
  forall w : world,
    exists emitted rest,
      lines (log (world_of (run sel xs w))) = (lines (log w) ++ emitted)%list /\
      trace_of sel (lock_debug w) xs = (emitted ++ rest)%list /\
      match run sel xs w with
      | Done _ w' => rest = [] /\ lock_debug w' = flag_after (lock_debug w) xs
      | _ => True
      end.
Proof.
  induction xs as [|x xs IH]; intros w.
  - exists [], []. cbn. repeat split. symmetry. apply app_nil_r.
  - rewrite run_cons. destruct x as [v|here o].
    + cbn [step trace_of flag_after].
      destruct (IH (set_lock_debug v w)) as (em & rest & H1 & H2 & H3).
      exists em, rest. repeat split; assumption.
    + cbn [trace_of flag_after].
      destruct (invoke_traces sel here o w) as (evs & Ha & Hpr).
      apply lines_added in Ha. rewrite Hpr in Ha.
      pose proof (invoke_keeps_flag sel here o w) as Hk.
      rewrite <- step_invoke_world in Ha, Hk.
      destruct (step sel (Invoke here o) w) as [u w1|w1|fl w1]; cbn [world_of] in *.
      * destruct (IH w1) as (em & rest & H1 & H2 & H3).
        rewrite Hk in H2, H3.
        exists ((if reads_flag sel o && negb (lock_debug w =? 0)
                 then [trace_line here (header_tag o) (handle o)]
                 else []) ++ em)%list, rest.
        split; [|split].
        -- rewrite H1, Ha. symmetry. apply app_assoc.
        -- rewrite H2. apply app_assoc.
        -- exact H3.
      * exists (if reads_flag sel o && negb (lock_debug w =? 0)
                then [trace_line here (header_tag o) (handle o)]
                else []), (trace_of sel (lock_debug w) xs).
        split; [exact Ha|]. split; [reflexivity|exact I].
      * exists (if reads_flag sel o && negb (lock_debug w =? 0)
                then [trace_line here (header_tag o) (handle o)]
                else []), (trace_of sel (lock_debug w) xs).
        split; [exact Ha|]. split; [reflexivity|exact I].
Qed.

(** *** The deadline conversion off the beaten track *)



(** *** The trylocks and the caller's variables *)

Lemma frame_set_get (x : string) (v : Z) (fr : frame) (old : option Z) :
  frame_get x fr = Some old ->
  exists fr', frame_set x v fr = Some fr' /\ frame_get x fr' = Some (Some v).
Proof.
  induction fr as [|[[y ty] val] fr IH]; cbn; [discriminate|].
  destruct (String.eqb x y) eqn:E.
  - intros _. eexists; split; [reflexivity|]. cbn. rewrite E. reflexivity.
  - intros H. destruct (IH H) as (fr' & Hs & Hg). rewrite Hs. cbn.
    eexists; split; [reflexivity|]. cbn. rewrite E. exact Hg.
Qed.

Lemma frames_set_get (x : string) (v : Z) (frs : list frame) (old : option Z) :
  frames_get x frs = Some old ->
  exists frs', frames_set x v frs = Some frs' /\ frames_get x frs' = Some (Some v).
Proof.
  induction frs as [|fr frs IH]; cbn; [discriminate|].
  destruct (frame_get x fr) as [val|] eqn:E.
  - intros _. destruct (frame_set_get x v fr val E) as (fr' & Hs & Hg).
    rewrite Hs. eexists; split; [reflexivity|]. cbn. rewrite Hg. reflexivity.
  - intros H. rewrite (frame_set_none _ _ _ E).
    destruct (IH H) as (frs' & Hs & Hg). rewrite Hs. cbn.
    eexists; split; [reflexivity|]. cbn. rewrite E. exact Hg.
Qed.

(** X5.  [janus_rwlock_reader_trylock] declares no variable of its own.
    Invoked with the flag clear where the caller has a variable [ret] in
    scope, it makes its one call to [g_rw_lock_reader_trylock], stores the
    result in the caller's [ret], whatever that held, and evaluates to it. *)
Theorem reader_trylock_writes_callers_ret (here : callsite) (a : Z) (w : world)
    (old : option Z) (r : Z) (s : bstate) :
  lock_debug w = 0 ->
  frames_get "ret" (frames w) = Some old ->
  run_prim g_rw_lock_reader_trylock [VPtr a] (locks w) = Returns r s ->
  exists w',
    invoke GLIB_DEFAULT here (rwlock_reader_trylock a) w = Done (Some r) w' /\
    frames_get "ret" (frames w') = Some (Some r) /\
    locks w' = s /\
    added w w' [EvFlag; EvCall g_rw_lock_reader_trylock [VPtr a]].
Proof.
  intros Hw Hret R.
  destruct (frames_set_get "ret" r (frames w) old Hret) as (frs' & Hs & Hg).
  expand_macros. rewrite Hw. cbn. rewrite R. cbn. rewrite Hs. cbn. rewrite Hg. cbn.
  eexists; repeat split. exact Hg.
Qed.

(** X6.  With the flag clear [janus_rwlock_writer_trylock] is a reader
    trylock: its one call is [g_rw_lock_reader_trylock], it evaluates to
    what that call returns and leaves the backend as that call leaves it.
    Its own [ret] shadows any [ret] of the caller, whose variables stay as
    they were. *)
Theorem writer_trylock_is_reader_trylock_when_clear (here : callsite) (a : Z) (w : world)
    (r : Z) (s : bstate) :
  lock_debug w = 0 ->
  run_prim g_rw_lock_reader_trylock [VPtr a] (locks w) = Returns r s ->
  invoke GLIB_DEFAULT here (rwlock_writer_trylock a) w =
    Done (Some r)
         (mkWorld 0 (frames w)
                  (EvCall g_rw_lock_reader_trylock [VPtr a] :: EvFlag :: log w) s).
Proof.
  intros Hw R. expand_macros. rewrite Hw. cbn. rewrite R. reflexivity.
Qed.

(** *** The flag as a truth value *)

(** X7.  The wrappers test [lock_debug] with [!]: all that counts is
    whether it is zero.  Under any two values other than zero an invocation
    does the same thing, step for step, and leaves everything but the flag
    itself the same. *)
Theorem any_nonzero_flag_is_set (sel : selection) (here : callsite) (o : op)
    (v : Z) (w : world) :
  lock_debug w <> 0 ->
  v <> 0 ->
  invoke sel here o (set_lock_debug v w) =
    outcome_map (set_lock_debug v) (invoke sel here o w).
Proof.
  intros Hw Hv.
  destruct sel, o; expand_macros;
    destruct (Z.eqb_spec v 0); try contradiction;
    destruct (Z.eqb_spec (lock_debug w) 0); try contradiction;
    cbn; split_on_world; reflexivity.
Qed.

(** X8.  The line goes out before the call.  When the flag is set and the
    backend call of a traced operation does not come back, the line of that
    invocation has already been handed over: the log ends with the flag's
    evaluation, the line, the call, and the backend is untouched. *)
Theorem blocked_call_is_traced (sel : selection) (here : callsite) (o : op)
    (f : prim) (args : list value) (w : world) :
  lock_debug w <> 0 ->
  reads_flag sel o = true ->
  is_rwlock_trylock o = false ->
  delegate sel o = Some (f, args) ->
  run_prim f args (locks w) = Blocks ->
  exists w',
    invoke sel here o w = Blocked w' /\
    added w w' [EvFlag; EvPrint (trace_line here (header_tag o) (handle o)); EvCall f args] /\
    locks w' = locks w.
Proof.
  intros Hw Hr Ht Hd R.
  destruct sel, o; try discriminate Hr; try discriminate Ht;
    cbn [delegate] in Hd; injection Hd as <- <-;
    expand_macros;
    (destruct (Z.eqb_spec (lock_debug w) 0); [contradiction|]);
    cbn; rewrite R; cbn; eexists; repeat split.
Qed.

(** *** What a line tells *)

Lemma append_inv_last (s1 s2 : string) (ch : ascii) :
  s1 ++ String ch "" = s2 ++ String ch "" -> s1 = s2.
Proof.
  revert s2. induction s1 as [|c1 s1 IH]; intros [|c2 s2]; cbn; intros H.
  - reflexivity.
  - injection H as _ H. destruct s2; discriminate H.
  - injection H as _ H. destruct s1; discriminate H.
  - injection H as -> H. f_equal. apply IH. exact H.
Qed.

Lemma trace_line_inv (here : callsite) (t1 t2 : string) (a1 a2 : Z) :
  trace_line here t1 a1 = trace_line here t2 a2 ->
  t1 ++ "] " ++ show_pointer a1 ++ String "010"%char "" =
  t2 ++ "] " ++ show_pointer a2 ++ String "010"%char "".
Proof.
  unfold trace_line. intros H.
  do 7 apply append_inv_head in H. exact H.
Qed.

Lemma traced_line (sel : selection) (here : callsite) (o : op) (w : world) :
  lock_debug w <> 0 ->
  reads_flag sel o = true ->
  lines (log (world_of (invoke sel here o w))) =
    (lines (log w) ++ [trace_line here (header_tag o) (handle o)])%list.
Proof.
  intros Hw Hr.
  destruct (invoke_traces sel here o w) as (evs & Ha & Hp).
  rewrite (lines_added _ _ _ Ha), Hp, Hr.
  destruct (Z.eqb_spec (lock_debug w) 0); [contradiction|reflexivity].
Qed.

(** X9.  With the flag set, the line of an invocation tells which format
    printed it and how its handle prints: two traced operations that hand
    over the same line at the same place carry the same operation tag and
    handles that print alike.  The tag does not always tell the operation:
    [janus_rwlock_writer_lock] and [janus_rwlock_writer_unlock] on one
    handle hand over the same line. *)
Theorem line_tells_tag_and_handle (sel : selection) (here : callsite) (o1 o2 : op)
    (a : Z) (w : world) :
  lock_debug w <> 0 ->
  reads_flag sel o1 = true ->
  reads_flag sel o2 = true ->
  (lines (log (world_of (invoke sel here o1 w))) <>
   lines (log (world_of (invoke sel here o2 w))) \/
   (header_tag o1 = header_tag o2 /\
    show_pointer (handle o1) = show_pointer (handle o2))) /\
  lines (log (world_of (invoke GLIB_DEFAULT here (rwlock_writer_lock a) w))) =
  lines (log (world_of (invoke GLIB_DEFAULT here (rwlock_writer_unlock a) w))).
Proof.
  intros Hw H1 H2. split.
  - destruct (list_eq_dec string_dec
                (lines (log (world_of (invoke sel here o1 w))))
                (lines (log (world_of (invoke sel here o2 w))))) as [H|H];
      [right|left; exact H].
    rewrite (traced_line sel here o1 w Hw H1), (traced_line sel here o2 w Hw H2) in H.
    apply app_inv_head in H.
    apply (f_equal (hd EmptyString)) in H. cbn [hd] in H.
    apply trace_line_inv in H.
    destruct o1; try (destruct sel; discriminate H1);
      destruct o2; try (destruct sel; discriminate H2);
      cbn [header_tag handle] in *;
      first [ do 2 apply append_inv_head in H; apply append_inv_last in H;
              split; [reflexivity|exact H]
            | cbn in H; discriminate H ].
  - rewrite (traced_line GLIB_DEFAULT here (rwlock_writer_lock a) w Hw eq_refl).
    rewrite (traced_line GLIB_DEFAULT here (rwlock_writer_unlock a) w Hw eq_refl).
    reflexivity.
Qed.

(** *** The variants on their own *)

(** X10.  A [_nodebug] or [_debug] macro invoked by name never looks at
    [lock_debug].  Whatever the flag, the [_nodebug] macro of an operation
    does nothing but call the operation's primitive, and the [_debug] macro
    hands over its line and then calls it.  This includes
    [janus_rwlock_writer_trylock_nodebug], which calls
    [g_rw_lock_writer_trylock]. *)
Theorem variants_bypass_the_flag (sel : selection) (here : callsite) (o : op) (w : world) :
  match delegate sel o, nodebug_variant sel o with
  | Some (f, args), Some m => added w (world_of (m w)) [EvCall f args]
  | _, _ => True
  end /\
  match delegate sel o, debug_variant sel here o with
  | Some (f, args), Some m =>
      added w (world_of (m w))
            [EvPrint (trace_line here (header_tag o) (handle o)); EvCall f args]
  | _, _ => True
  end.
Proof.
  split; destruct sel, o; cbn [delegate nodebug_variant debug_variant]; trivial;
    autounfold with facade; cbn;
    repeat match goal with
      | |- context [run_prim ?f ?args ?s] =>
          let R := fresh "R" in destruct (run_prim f args s) eqn:R; cbn
      | |- context [frames_set ?x ?v (frames ?w)] =>
          let F := fresh "F" in destruct (frames_set x v (frames w)) eqn:F; cbn
      end;
    reflexivity.
Qed.
End Further.

(** *** These properties on concrete runs *)

Lemma run_refines_direct_witness :
  forallb (plain GLIB_DEFAULT)
          [Invoke Model.at_main (mutex_lock 7); Toggle 1;
           Invoke Model.at_main (mutex_unlock 7)] = true /\
  exists w',
    Model.program GLIB_DEFAULT
      [Invoke Model.at_main (mutex_lock 7); Toggle 1; Invoke Model.at_main (mutex_unlock 7)]
      (Model.start 0) = Done tt w' /\
    locks w' = Model.idle /\
    frames w' = frames (Model.start 0) /\
    calls (log w') = [(g_mutex_lock, [VPtr 7]); (g_mutex_unlock, [VPtr 7])].
Proof.
  split; [reflexivity|].
  exact (run_refines_direct (backend := Model.backend) (sink := Model.sink) GLIB_DEFAULT
           [Invoke Model.at_main (mutex_lock 7); Toggle 1;
            Invoke Model.at_main (mutex_unlock 7)]
           (Model.start 0) eq_refl).
Defined.



Lemma reader_trylock_writes_callers_ret_witness :
  lock_debug (caller_with_ret 0) = 0 /\
  frames_get "ret" (frames (caller_with_ret 0)) = Some (Some 5) /\
  run_prim (PrimitiveBackend := Model.backend) g_rw_lock_reader_trylock [VPtr 7]
           (locks (caller_with_ret 0)) =
    Returns 1 {| Model.held := []; Model.readers := [7]; Model.writers := [] |} /\
  exists w',
    Model.facade GLIB_DEFAULT Model.at_main (rwlock_reader_trylock 7) (caller_with_ret 0) =
      Done (Some 1) w' /\
    frames_get "ret" (frames w') = Some (Some 1).
Proof.
  split; [reflexivity|]. split; [reflexivity|]. split; [reflexivity|].
  destruct (reader_trylock_writes_callers_ret
              (backend := Model.backend) (sink := Model.sink)
              Model.at_main 7 (caller_with_ret 0) (Some 5) 1
              {| Model.held := []; Model.readers := [7]; Model.writers := [] |}
              eq_refl eq_refl eq_refl) as (w' & H1 & H2 & _).
  exists w'. split; assumption.
Defined.

Lemma writer_trylock_is_reader_trylock_when_clear_witness :
  lock_debug (caller_with_ret 0) = 0 /\
  run_prim (PrimitiveBackend := Model.backend) g_rw_lock_reader_trylock [VPtr 7]
           (locks (caller_with_ret 0)) =
    Returns 1 {| Model.held := []; Model.readers := [7]; Model.writers := [] |} /\
  Model.facade GLIB_DEFAULT Model.at_main (rwlock_writer_trylock 7) (caller_with_ret 0) =
    Done (Some 1)
         (@mkWorld Model.backend 0 (frames (caller_with_ret 0))
            [EvCall g_rw_lock_reader_trylock [VPtr 7]; EvFlag]
            {| Model.held := []; Model.readers := [7]; Model.writers := [] |}).
Proof.
  split; [reflexivity|]. split; [reflexivity|].
  exact (writer_trylock_is_reader_trylock_when_clear
           (backend := Model.backend) (sink := Model.sink)
           Model.at_main 7 (caller_with_ret 0) 1
           {| Model.held := []; Model.readers := [7]; Model.writers := [] |}
           eq_refl eq_refl).
Defined.

Lemma any_nonzero_flag_is_set_witness :
  lock_debug (Model.start 1) <> 0 /\
  -1 <> 0 /\
  Model.facade GLIB_DEFAULT Model.at_main (mutex_lock 7) (set_lock_debug (-1) (Model.start 1)) =
    outcome_map (set_lock_debug (-1))
                (Model.facade GLIB_DEFAULT Model.at_main (mutex_lock 7) (Model.start 1)).
Proof.
  assert (H1 : lock_debug (Model.start 1) <> 0) by (simpl; lia).
  assert (H2 : -1 <> 0) by lia.
  split; [exact H1|]. split; [exact H2|].
  exact (any_nonzero_flag_is_set (backend := Model.backend) (sink := Model.sink)
           GLIB_DEFAULT Model.at_main (mutex_lock 7) (-1) (Model.start 1) H1 H2).
Defined.

Lemma blocked_call_is_traced_witness :
  lock_debug (Model.busy 1) <> 0 /\
  reads_flag GLIB_DEFAULT (mutex_lock 7) = true /\
  is_rwlock_trylock (mutex_lock 7) = false /\
  delegate GLIB_DEFAULT (mutex_lock 7) = Some (g_mutex_lock, [VPtr 7]) /\
  run_prim (PrimitiveBackend := Model.backend) g_mutex_lock [VPtr 7]
           (locks (Model.busy 1)) = Blocks /\
  exists w',
    Model.facade GLIB_DEFAULT Model.at_main (mutex_lock 7) (Model.busy 1) = Blocked w' /\
    added (Model.busy 1) w'
          [EvFlag; EvPrint (trace_line (sink := Model.sink) Model.at_main "lock" 7);
           EvCall g_mutex_lock [VPtr 7]] /\
    locks w' = locks (Model.busy 1).
Proof.
  assert (H1 : lock_debug (Model.busy 1) <> 0) by (simpl; lia).
  split; [exact H1|]. split; [reflexivity|]. split; [reflexivity|].
  split; [reflexivity|]. split; [reflexivity|].
  exact (blocked_call_is_traced (backend := Model.backend) (sink := Model.sink)
           GLIB_DEFAULT Model.at_main (mutex_lock 7) g_mutex_lock [VPtr 7] (Model.busy 1)
           H1 eq_refl eq_refl eq_refl eq_refl).
Defined.

Lemma line_tells_tag_and_handle_witness :
  lock_debug (Model.start 1) <> 0 /\
  reads_flag GLIB_DEFAULT (mutex_lock 7) = true /\
  reads_flag GLIB_DEFAULT (mutex_unlock 7) = true /\
  lines (log (world_of (Model.facade GLIB_DEFAULT Model.at_main (rwlock_writer_lock 9)
                                     (Model.start 1)))) =
  lines (log (world_of (Model.facade GLIB_DEFAULT Model.at_main (rwlock_writer_unlock 9)
                                     (Model.start 1)))).
Proof.
  assert (H1 : lock_debug (Model.start 1) <> 0) by (simpl; lia).
  split; [exact H1|]. split; [reflexivity|]. split; [reflexivity|].
  exact (proj2 (line_tells_tag_and_handle (backend := Model.backend) (sink := Model.sink)
                  GLIB_DEFAULT Model.at_main (mutex_lock 7) (mutex_unlock 7) 9
                  (Model.start 1) H1 eq_refl eq_refl)).
Defined.
